(** * Query dispatch layer of the database MCP servers

    A shallow embedding of [database_mcp_server.py] (the original,
    SQLite/SQLAlchemy server) and [database_mcp_serverv2.py] (the
    PostgreSQL/asyncpg server), and the properties of their query safety
    gate, resource handlers, row serialisation and pool life cycle.

    Python [str] values are modelled by [string]; a character of the
    model is the code point of the same number (U+0000 .. U+00FF), and
    [isspace], [lower] below are Python's [str.isspace] and [str.lower]
    on that range. *)

From Stdlib Require Import Bool List ZArith NArith Lia Ascii String.
From Stdlib Require Import Floats.SpecFloat.
Import ListNotations.

#[local] Set Warnings "-register-all".

Local Open Scope list_scope.
Local Open Scope string_scope.

(* ================================================================== *)
(** ** Python string primitives *)
(* ================================================================== *)

Module PyStr.

(** [str.isspace] on one character: TAB..CR, FS..US, SPACE, NEL, NBSP. *)
Definition isspace (c : ascii) : bool :=
  let n := N_of_ascii c in
  (((9 <=? n) && (n <=? 13)) || ((28 <=? n) && (n <=? 32))
   || (n =? 133) || (n =? 160))%N.

(** [str.lower] on one character: A..Z and the Latin-1 capitals
    (U+00C0 .. U+00DE but the multiplication sign) move 32 up. *)
Definition lower_char (c : ascii) : ascii :=
  let n := N_of_ascii c in
  if (((65 <=? n) && (n <=? 90))
      || ((192 <=? n) && (n <=? 222) && negb (n =? 215)))%N
  then ascii_of_N (n + 32) else c.

Fixpoint lower (s : string) : string :=
  match s with
  | EmptyString => EmptyString
  | String c r => String (lower_char c) (lower r)
  end.

(** What a scanner emits when it leaves a token: nothing if no character
    was collected. *)
Definition flush (cur : string) : list string :=
  match cur with
  | EmptyString => []
  | _ => [cur]
  end.

(** [str.split()] without separator: one pass over the text, [cur] is
    the token being collected; a whitespace character closes it. *)
Fixpoint split_from (cur s : string) : list string :=
  match s with
  | EmptyString => flush cur
  | String c r =>
      if isspace c then (flush cur ++ split_from EmptyString r)%list
      else split_from (cur ++ String c EmptyString) r
  end.

Definition split (s : string) : list string := split_from EmptyString s.

(** [str.lstrip()], [str.rstrip()] and [str.strip()] without argument. *)
Fixpoint lstrip (s : string) : string :=
  match s with
  | EmptyString => EmptyString
  | String c r => if isspace c then lstrip r else s
  end.

Fixpoint rstrip (s : string) : string :=
  match s with
  | EmptyString => EmptyString
  | String c r =>
      match rstrip r with
      | EmptyString => if isspace c then EmptyString else String c EmptyString
      | r' => String c r'
      end
  end.

Definition strip (s : string) : string := rstrip (lstrip s).

(** [needle in hay] on strings. *)
Fixpoint contains (needle hay : string) : bool :=
  String.prefix needle hay
  || match hay with
     | EmptyString => false
     | String _ r => contains needle r
     end.

(** [x in xs] on a list of strings. *)
Definition mem (x : string) (xs : list string) : bool :=
  existsb (String.eqb x) xs.

(** All characters of [s] are outside the whitespace class. *)
Fixpoint nospace (s : string) : bool :=
  match s with
  | EmptyString => true
  | String c r => negb (isspace c) && nospace r
  end.

(** A text is at a token boundary on its left when it is empty or ends
    in whitespace, on its right when it is empty or begins with it. *)
Definition left_boundary (pre : string) : Prop :=
  pre = EmptyString
  \/ exists a c, pre = a ++ String c EmptyString /\ isspace c = true.

Definition right_boundary (post : string) : Prop :=
  post = EmptyString \/ exists c r, post = String c r /\ isspace c = true.

(** [w] stands in [s] as a whitespace-delimited token. *)
Definition standalone_token (w s : string) : Prop :=
  exists pre post,
    s = pre ++ w ++ post /\ w <> EmptyString /\ nospace w = true
    /\ left_boundary pre /\ right_boundary post.

End PyStr.

(* ================================================================== *)
(** ** Python values that cross the driver boundary *)
(* ================================================================== *)

Module PyVal.

(** [datetime.datetime]: the calendar fields, and the UTC offset of an
    aware value in whole seconds ([None] for a naive one). *)
Record datetime : Type := mk_datetime {
  year : N; month : N; day : N;
  hour : N; minute : N; second : N; microsecond : N;
  utcoffset : option Z
}.

(** [datetime.date], which is not a [datetime.datetime]. *)
Record date : Type := mk_date { d_year : N; d_month : N; d_day : N }.

(** [decimal.Decimal] as the driver builds it from a [numeric] column:
    sign, coefficient and exponent, or one of the special values. *)
Inductive Decimal : Type :=
| DecFinite (negative : bool) (coefficient : N) (exponent : Z)
| DecInfinity (negative : bool)
| DecNaN.

(** A Python object as far as the servers look at it.  [PFloat] carries
    an IEEE 754 binary64 value. *)
Inductive pyval : Type :=
| PNone
| PBool (b : bool)
| PInt (z : Z)
| PFloat (f : spec_float)
| PStr (s : string)
| PDatetime (d : datetime)
| PDecimal (d : Decimal)
| PDate (d : date)
| PBytes (b : string)
| PUUID (u : N)
| PList (l : list pyval)
| PDict (d : list (string * pyval)).

(** Python truth value of an object. *)
Definition truthy (v : pyval) : bool :=
  match v with
  | PNone => false
  | PBool b => b
  | PInt z => negb (z =? 0)%Z
  | PFloat (S754_zero _) => false
  | PFloat _ => true
  | PStr EmptyString => false
  | PStr _ => true
  | PDatetime _ => true
  | PDecimal (DecFinite _ N0 _) => false
  | PDecimal _ => true
  | PDate _ => true
  | PBytes EmptyString => false
  | PBytes _ => true
  | PUUID _ => true
  | PList [] => false
  | PList _ => true
  | PDict [] => false
  | PDict _ => true
  end.

(** [isinstance(v, datetime)] and [isinstance(v, Decimal)]. *)
Definition is_datetime (v : pyval) : bool :=
  match v with PDatetime _ => true | _ => false end.

Definition is_decimal (v : pyval) : bool :=
  match v with PDecimal _ => true | _ => false end.

(** The decimal digit of the units of [n]. *)
Definition digit (n : N) : ascii := ascii_of_N (48 + n mod 10).

(** The [width] low decimal digits of [n], most significant first: the
    ["%0<width>d"] format of a number below [10 ^ width]. *)
Fixpoint zpad (width : nat) (n : N) : string :=
  match width with
  | O => EmptyString
  | S w => zpad w (n / 10) ++ String (digit n) EmptyString
  end.

(** The UTC offset suffix of [datetime.isoformat]. *)
Definition format_offset (off : option Z) : string :=
  match off with
  | None => EmptyString
  | Some o =>
      let sign := if (o <? 0)%Z then "-" else "+" in
      let a := Z.to_N (Z.abs o) in
      let hh := (a / 3600)%N in
      let mm := ((a mod 3600) / 60)%N in
      let ss := (a mod 60)%N in
      sign ++ zpad 2 hh ++ ":" ++ zpad 2 mm
      ++ (if (ss =? 0)%N then EmptyString else ":" ++ zpad 2 ss)
  end.

(** [datetime.isoformat()] with its default separator and time spec. *)
Definition isoformat (d : datetime) : string :=
  zpad 4 (year d) ++ "-" ++ zpad 2 (month d) ++ "-" ++ zpad 2 (day d)
  ++ "T" ++ zpad 2 (hour d) ++ ":" ++ zpad 2 (minute d)
  ++ ":" ++ zpad 2 (second d)
  ++ (if (microsecond d =? 0)%N then EmptyString
      else "." ++ zpad 6 (microsecond d))
  ++ format_offset (utcoffset d).

(** [float(d)] for a [Decimal]: the binary64 value nearest to the
    decimal's value, ties to even. *)
Definition float_of_decimal (d : Decimal) : spec_float :=
  match d with
  | DecNaN => S754_nan
  | DecInfinity s => S754_infinity s
  | DecFinite s N0 _ => S754_zero s
  | DecFinite s (Npos c) e =>
      if (0 <=? e)%Z
      then binary_round 53 1024 s (c * Z.to_pos (10 ^ e))%positive 0
      else SFdiv 53 1024 (S754_finite s c 0)
                         (S754_finite false (Z.to_pos (10 ^ (- e))) 0)
  end.

(** The types the transport can carry after serialisation, as the
    result row of the interface lists them. *)
Definition has_conversion_rule (v : pyval) : bool :=
  match v with
  | PNone | PBool _ | PInt _ | PFloat _ | PStr _
  | PDatetime _ | PDecimal _ => true
  | PDate _ | PBytes _ | PUUID _ | PList _ | PDict _ => false
  end.

(** Python [dict] with string keys: keys are unique and keep the order
    of their first insertion. *)
Definition pydict : Type := list (string * pyval).

Fixpoint dict_set (d : pydict) (k : string) (v : pyval) : pydict :=
  match d with
  | [] => [(k, v)]
  | (k', v') :: r =>
      if String.eqb k' k then (k', v) :: r else (k', v') :: dict_set r k v
  end.

Fixpoint dict_get (d : pydict) (k : string) : option pyval :=
  match d with
  | [] => None
  | (k', v') :: r => if String.eqb k' k then Some v' else dict_get r k
  end.

Definition dict_keys (d : pydict) : list string := map fst d.

(** Where a key stands after it is set: at its own place if it is
    there, at the end if it is new. *)
Definition add_key (keys : list string) (k : string) : list string :=
  if PyStr.mem k keys then keys else (keys ++ [k])%list.

End PyVal.

(* ================================================================== *)
(** ** Outcomes and effects *)
(* ================================================================== *)

Module Eff.

(** Exceptions that leave a handler. *)
Inductive exn : Type :=
| ConnectionError
| UndefinedTableError (relation : string)
| PostgresSyntaxError
| DataError
| KeyError (key : string)
| TypeError
| AttributeError (name : string)
| OperationalError
| NoSuchTableError (table : string).

Inductive result (A : Type) : Type :=
| Ok (a : A)
| Raise (e : exn).

Arguments Ok {A} a.
Arguments Raise {A} e.

(** A computation over the state [W] of the process and of what it
    talks to; an exception ends it and keeps the state reached. *)
Definition M (W A : Type) : Type := W -> result A * W.

Definition ret {W A} (a : A) : M W A := fun w => (Ok a, w).

Definition raise {W A} (e : exn) : M W A := fun w => (Raise e, w).

Definition bind {W A B} (m : M W A) (k : A -> M W B) : M W B :=
  fun w =>
    match m w with
    | (Ok a, w') => k a w'
    | (Raise e, w') => (Raise e, w')
    end.

Definition lift {W A} (r : result A) : M W A := fun w => (r, w).

(** A list comprehension whose element expression may raise. *)
Fixpoint traverse {A B} (f : A -> result B) (l : list A) : result (list B) :=
  match l with
  | [] => Ok []
  | x :: r =>
      match f x with
      | Raise e => Raise e
      | Ok y =>
          match traverse f r with
          | Raise e => Raise e
          | Ok ys => Ok (y :: ys)
          end
      end
  end.

End Eff.

Declare Scope eff_scope.
Delimit Scope eff_scope with eff.
Notation "x <- m ;; k" := (Eff.bind m (fun x => k))
  (at level 61, m at next level, right associativity) : eff_scope.
Notation "m ;;; k" := (Eff.bind m (fun _ => k))
  (at level 61, right associativity) : eff_scope.

(* ================================================================== *)
(** ** The driver and the database behind it *)
(* ================================================================== *)

Module Driver.
Import PyVal Eff.

(** [asyncpg.quote_ident]: the package exports no such name (its
    quoting helper is the private [asyncpg.utils._quote_ident]), so the
    attribute lookup raises before the argument is looked at. *)
Definition quote_ident (ident : string) : result string :=
  Raise (AttributeError "quote_ident").

(** A statement as the driver sends it: its text and the values bound
    to [$1], [$2], ... *)
Record stmt : Type := mk_stmt { sql_text : string; bind_args : list pyval }.

(** [asyncpg.Record]: the columns of one row in order.  Two columns may
    carry one name; [row[key]] then reads the last of them. *)
Definition PgRecord : Type := list (string * pyval).

Definition record_keys (r : PgRecord) : list string := map fst r.

Fixpoint record_get (r : PgRecord) (key : string) : option pyval :=
  match r with
  | [] => None
  | (k, v) :: r' =>
      match record_get r' key with
      | Some v' => Some v'
      | None => if String.eqb k key then Some v else None
      end
  end.

(** The answer of the database server to a statement. *)
Definition Database : Type := stmt -> result (list PgRecord).

(** A pool made by [asyncpg.create_pool]. *)
Record Pool : Type := mk_pool { pool_id : nat; min_size : Z; max_size : Z }.

(** The server process and its surroundings: the module global
    [_db_pool]; whether the database accepts connections; its answers;
    the pools created and closed so far; the statements sent so far. *)
Record World : Type := mk_world {
  _db_pool : option Pool;
  reachable : bool;
  backend : Database;
  created : list Pool;
  closed : list Pool;
  sent : list stmt
}.

Definition set_db_pool (p : option Pool) : M World unit :=
  fun w => (Ok tt, mk_world p (reachable w) (backend w)
                            (created w) (closed w) (sent w)).

(** [asyncpg.create_pool(..., min_size, max_size, ...)]: opens the
    first connections at once, so it fails when the server is away. *)
Definition create_pool (min_size max_size : Z) : M World Pool :=
  fun w =>
    if reachable w then
      let p := mk_pool (List.length (created w)) min_size max_size in
      (Ok p, mk_world (_db_pool w) (reachable w) (backend w)
                      (created w ++ [p]) (closed w) (sent w))
    else (Raise ConnectionError, w).

(** [pool.close()]. *)
Definition pool_close (p : Pool) : M World unit :=
  fun w => (Ok tt, mk_world (_db_pool w) (reachable w) (backend w)
                            (created w) (closed w ++ [p]) (sent w)).

(** The world after the server has received one more statement. *)
Definition log_sent (s : stmt) (w : World) : World :=
  mk_world (_db_pool w) (reachable w) (backend w)
           (created w) (closed w) (sent w ++ [s]).

(** [conn.fetch(sql, *args)] on a connection taken from the pool; the
    one request in progress always finds a free connection. *)
Definition fetch (sql : string) (args : list pyval) : M World (list PgRecord) :=
  fun w =>
    let s := mk_stmt sql args in
    (backend w s, log_sent s w).

(** [conn.fetchval(sql, *args)]: first column of the first row, [None]
    when there is no row. *)
Definition fetchval (sql : string) (args : list pyval) : M World pyval :=
  (rows <- fetch sql args ;;
   ret match rows with
       | ((_, v) :: _) :: _ => v
       | _ => PNone
       end)%eff.

End Driver.

(** *** The catalog of the database *)

Module Postgres.
Import PyVal Eff Driver.

Record Column : Type := mk_column {
  column_name : string; data_type : string; is_nullable : bool
}.

(** A table of schema [public] as [information_schema.columns] shows it
    to the connected role: its name and its columns in ordinal order
    (there may be none). *)
Record Table : Type := mk_table {
  table_name : string; table_columns : list Column
}.

Definition Catalog : Type := list Table.

Fixpoint find_table (c : Catalog) (name : string) : option Table :=
  match c with
  | [] => None
  | t :: r => if String.eqb (table_name t) name then Some t else find_table r name
  end.

Definition in_catalog (c : Catalog) (name : string) : bool :=
  match find_table c name with Some _ => true | None => false end.

(** The columns the catalog holds under a table name: none for a name
    it does not know. *)
Definition columns_of (c : Catalog) (name : string) : list Column :=
  match find_table c name with
  | Some t => table_columns t
  | None => []
  end.

(** The row of [information_schema.columns] for a column, restricted to
    the three selected fields. *)
Definition column_row (col : Column) : PgRecord :=
  [ ("column_name", PStr (column_name col));
    ("data_type", PStr (data_type col));
    ("is_nullable", PStr (if is_nullable col then "YES" else "NO")) ].

(** The length of a text in UTF-8, the encoding of the connection: one
    byte for a code point below 128, two for the others. *)
Fixpoint utf8_length (s : string) : nat :=
  match s with
  | EmptyString => 0
  | String c r => (if (N_of_ascii c <? 128)%N then 1 else 2) + utf8_length r
  end.

(** The text fits the server's type [name], which holds 63 bytes. *)
Definition fits_name (s : string) : bool := (utf8_length s <=? 63)%nat.

(** The column query of the schema resource, as a token sequence. *)
Definition columns_query_tokens : list string :=
  [ "SELECT"; "column_name,"; "data_type,"; "is_nullable";
    "FROM"; "information_schema.columns";
    "WHERE"; "table_schema"; "="; "'public'"; "AND"; "table_name"; "="; "$1";
    "ORDER"; "BY"; "ordinal_position;" ].

Fixpoint tokens_eqb (a b : list string) : bool :=
  match a, b with
  | [], [] => true
  | x :: a', y :: b' => String.eqb x y && tokens_eqb a' b'
  | _, _ => false
  end.

(** A server whose schema [public] holds the tables of [c]: it answers
    the version probe, and the column query of the schema resource for
    a name that fits its type [name], from the catalog; what it answers
    to any other statement is left to [elsewhere]. *)
Definition postgres (c : Catalog) (elsewhere : Database) : Database :=
  fun s =>
    let q := sql_text s in
    if String.eqb q "SELECT version();"
    then Ok [[("version", PStr "PostgreSQL")]]
    else if tokens_eqb (PyStr.split q) columns_query_tokens then
      match bind_args s with
      | [PStr name] =>
          if fits_name name then Ok (map column_row (columns_of c name))
          else elsewhere s
      | _ => Raise DataError
      end
    else elsewhere s.

End Postgres.

(* ================================================================== *)
(** ** database_mcp_server.py: the original server *)
(* ================================================================== *)

Module ServerV1.
Import PyVal Eff.

(** A textual statement with its named bind parameters, as handed to
    [session.execute(text(...), {...})]. *)
Record statement : Type := mk_statement {
  text : string; params : list (string * pyval)
}.

(** The engine behind the session factory and the inspector: what the
    driver and the database make of a statement handed to the session
    (the rows as mappings, or an exception), the columns the inspector
    reports for a table name, and the statements handed over so far. *)
Record Engine : Type := mk_engine {
  run : statement -> result (list pydict);
  columns_of : string -> result (list pydict);
  executed : list statement
}.

(** [session.execute(stmt, params)] followed by [fetchall()]. *)
Definition execute (sql : string) (ps : list (string * pyval))
  : M Engine (list pydict) :=
  fun e =>
    let s := mk_statement sql ps in
    (run e s, mk_engine (run e) (columns_of e) (executed e ++ [s])).

(** [inspector.get_columns(table_name)]. *)
Definition get_columns (table_name : string) : M Engine (list pydict) :=
  fun e => (columns_of e table_name, e).

Definition _is_safe_query (sql : string) : bool :=
  let sql_lower := PyStr.strip (PyStr.lower sql) in
  if PyStr.contains "delete" sql_lower then true
  else if PyStr.contains "drop" sql_lower then true
  else if PyStr.contains "insert" sql_lower then true
  else if PyStr.contains "update" sql_lower then true
  else if PyStr.contains "truncate" sql_lower then true
  else true.

Definition dangerous_sql_envelope : pyval :=
  PDict [ ("success", PBool false);
          ("error", PStr "Potentially dangerous SQL operations are not allowed. Only SELECT queries are permitted.") ].

Definition execute_query (sql : string) : M Engine pyval :=
  if negb (_is_safe_query sql) then ret dangerous_sql_envelope
  else
    (rows <- execute sql [] ;;
     ret (PDict [ ("success", PBool true);
                  ("results", PList (map PDict rows)) ]))%eff.

(** [d[k]] on a mapping. *)
Definition getitem (d : pydict) (k : string) : result pyval :=
  match dict_get d k with
  | Some v => Ok v
  | None => Raise (KeyError k)
  end.

(** One entry of [column_info]; [str(col["type"])] is the type name the
    inspector gives. *)
Definition column_entry (col : pydict) : result pyval :=
  match getitem col "name", getitem col "type", getitem col "nullable" with
  | Ok n, Ok t, Ok nl =>
      Ok (PDict [ ("name", n); ("type", t); ("nullable", nl) ])
  | Raise e, _, _ | _, Raise e, _ | _, _, Raise e => Raise e
  end.

Definition get_table_schema (table_name : string) : M Engine pyval :=
  (columns <- get_columns table_name ;;
   column_info <- lift (traverse column_entry columns) ;;
   ret (PDict [ ("table_name", PStr table_name);
                ("columns", PList column_info) ]))%eff.

Definition get_table_data (table_name : string) (limit offset : Z)
  : M Engine pyval :=
  (rows <- execute ("SELECT * FROM " ++ table_name ++ " LIMIT :limit OFFSET :offset")
                   [ ("limit", PInt limit); ("offset", PInt offset) ] ;;
   let data := map PDict rows in
   ret (PDict [ ("table_name", PStr table_name);
                ("sample_data", PList data);
                ("rows_returned", PInt (Z.of_nat (List.length data))) ]))%eff.

(** [.scalar()]: first column of the first row, [None] without rows. *)
Definition scalar (rows : list pydict) : pyval :=
  match rows with
  | ((_, v) :: _) :: _ => v
  | _ => PNone
  end.

Definition get_table_stats (table_name : string) : M Engine pyval :=
  (rows <- execute ("SELECT COUNT(*) FROM " ++ table_name) [] ;;
   let total_rows := scalar rows in
   columns <- get_columns table_name ;;
   ret (PDict [ ("table_name", PStr table_name);
                ("total_rows", total_rows);
                ("column_count", PInt (Z.of_nat (List.length columns))) ]))%eff.

End ServerV1.

(* ================================================================== *)
(** ** database_mcp_serverv2.py: the PostgreSQL server *)
(* ================================================================== *)

Module ServerV2.
Import PyVal Eff Driver.

(** Requests are run one after the other: every [await] is a plain
    sequencing point of [M World]. *)

Definition init_db (min_size max_size : Z) : M World Pool :=
  fun w =>
    match _db_pool w with
    | Some p => (Ok p, w)
    | None =>
        (p <- create_pool min_size max_size ;;
         set_db_pool (Some p) ;;;
         _ <- fetchval "SELECT version();" [] ;;
         ret p)%eff w
    end.

Definition close_db : M World unit :=
  fun w =>
    match _db_pool w with
    | Some p => (pool_close p ;;; set_db_pool None)%eff w
    | None => (Ok tt, w)
    end.

Definition _DENIED_KEYWORDS : list string :=
  [ "insert"; "update"; "delete"; "drop"; "truncate"; "alter" ].

(** [tokens and not any(k in tokens for k in _DENIED_KEYWORDS)]: the
    empty token list itself when there is no token, a boolean
    otherwise. *)
Definition _is_safe_query (sql : string) : pyval :=
  let tokens := PyStr.split (PyStr.lower sql) in
  match tokens with
  | [] => PList []
  | _ => PBool (negb (existsb (fun k => PyStr.mem k tokens) _DENIED_KEYWORDS))
  end.

(** The text has a token at all; and it has a token that is a denied
    keyword in some letter case. *)
Definition has_token (sql : string) : Prop :=
  exists w, PyStr.standalone_token w sql.

Definition has_denied_token (sql : string) : Prop :=
  exists w, In (PyStr.lower w) _DENIED_KEYWORDS /\ PyStr.standalone_token w sql.

(** The conversion both row loops apply to one value; [None] stands for
    "no branch taken", the entry is then left as it is. *)
Definition converted (value : pyval) : option pyval :=
  match value with
  | PDatetime d => Some (PStr (isoformat d))
  | PDecimal d => Some (PFloat (float_of_decimal d))
  | _ => None
  end.

(** The value an entry holds after the loop. *)
Definition serialized (value : pyval) : pyval :=
  match converted value with
  | Some v' => v'
  | None => value
  end.

(** The names of a column sequence, each at its first occurrence. *)
Fixpoint first_occurrences (keys : list string) : list string :=
  match keys with
  | [] => []
  | k :: r => k :: filter (fun x => negb (String.eqb x k)) (first_occurrences r)
  end.

(** [{key: row[key] for key in row.keys()}]: one step sets [key] to
    [row[key]]; the keys come from the row, so the read finds a value. *)
Definition set_from (row : PgRecord) (d : pydict) (key : string) : pydict :=
  match record_get row key with
  | Some v => dict_set d key v
  | None => d
  end.

Definition dict_of_record (row : PgRecord) : pydict :=
  fold_left (set_from row) (record_keys row) [].

(** The loop over [processed_row.items()]: it assigns to keys that are
    already there, so the view it walks keeps its keys and order, and
    each entry is seen with the value the comprehension gave it. *)
Definition convert_entry (d : pydict) (kv : string * pyval) : pydict :=
  match converted (snd kv) with
  | Some v' => dict_set d (fst kv) v'
  | None => d
  end.

Definition convert_items (processed_row : pydict) : pydict :=
  fold_left convert_entry processed_row processed_row.

Definition process_row (row : PgRecord) : pydict :=
  convert_items (dict_of_record row).

Definition unsafe_envelope : pyval :=
  PDict [ ("success", PBool false);
          ("error", PStr "Only safe SELECT queries are allowed.") ].

Definition execute_query (sql : string) : M World pyval :=
  if negb (truthy (_is_safe_query sql)) then ret unsafe_envelope
  else
    (_ <- init_db 2 10 ;;
     rows <- fetch sql [] ;;
     let result := map (fun row => PDict (process_row row)) rows in
     ret (PDict [ ("success", PBool true); ("results", PList result) ]))%eff.

Definition schema_sql : string := "
        SELECT column_name, data_type, is_nullable
        FROM information_schema.columns
        WHERE table_schema = 'public' AND table_name = $1
        ORDER BY ordinal_position;
    ".

(** [r[key]] on a record. *)
Definition getitem (r : PgRecord) (key : string) : result pyval :=
  match record_get r key with
  | Some v => Ok v
  | None => Raise (KeyError key)
  end.

(** [v == "YES"]. *)
Definition eq_str (v : pyval) (s : string) : bool :=
  match v with
  | PStr s' => String.eqb s' s
  | _ => false
  end.

Definition column_entry (r : PgRecord) : result pyval :=
  match getitem r "column_name", getitem r "data_type", getitem r "is_nullable" with
  | Ok n, Ok t, Ok nl =>
      Ok (PDict [ ("name", n); ("type", t); ("nullable", PBool (eq_str nl "YES")) ])
  | Raise e, _, _ | _, Raise e, _ | _, _, Raise e => Raise e
  end.

Definition get_table_schema (table_name : string) : M World pyval :=
  (_ <- init_db 2 10 ;;
   rows <- fetch schema_sql [PStr table_name] ;;
   columns <- lift (traverse column_entry rows) ;;
   ret (PDict [ ("table_name", PStr table_name);
                ("columns", PList columns) ]))%eff.

Definition get_table_data (table_name : string) (limit offset : Z)
  : M World pyval :=
  (_ <- init_db 2 10 ;;
   quoted <- lift (quote_ident table_name) ;;
   rows <- fetch ("SELECT * FROM " ++ quoted ++ " LIMIT $1 OFFSET $2;")
                 [PInt limit; PInt offset] ;;
   let processed_sample_data := map (fun row => PDict (process_row row)) rows in
   ret (PDict [ ("table_name", PStr table_name);
                ("sample_data", PList processed_sample_data);
                ("rows_returned", PInt (Z.of_nat (List.length rows))) ]))%eff.

(** [len(schema_info["columns"])]. *)
Definition len_columns (schema_info : pyval) : result pyval :=
  match schema_info with
  | PDict d =>
      match dict_get d "columns" with
      | Some (PList l) => Ok (PInt (Z.of_nat (List.length l)))
      | Some _ => Raise TypeError
      | None => Raise (KeyError "columns")
      end
  | _ => Raise TypeError
  end.

Definition get_table_stats (table_name : string) : M World pyval :=
  (_ <- init_db 2 10 ;;
   quoted <- lift (quote_ident table_name) ;;
   total_rows <- fetchval ("SELECT COUNT(*) FROM " ++ quoted ++ ";") [] ;;
   schema_info <- get_table_schema table_name ;;
   column_count <- lift (len_columns schema_info) ;;
   ret (PDict [ ("table_name", PStr table_name);
                ("total_rows", total_rows);
                ("column_count", column_count) ]))%eff.

(** The process has its pool and talks to a PostgreSQL server whose
    catalog is [c]. *)
Definition serving (c : Postgres.Catalog) (w : World) : Prop :=
  (exists elsewhere, backend w = Postgres.postgres c elsewhere)
  /\ _db_pool w <> None.

(** The entry of the [columns] list that describes a catalog column. *)
Definition descriptor (col : Postgres.Column) : pyval :=
  PDict [ ("name", PStr (Postgres.column_name col));
          ("type", PStr (Postgres.data_type col));
          ("nullable", PBool (Postgres.is_nullable col)) ].

End ServerV2.

(* ================================================================== *)
(** ** Sample data *)
(* ================================================================== *)

Module Sample.
Import PyVal Eff Driver Postgres.

Definition users : Table :=
  mk_table "users"
    [ mk_column "id" "integer" false; mk_column "name" "text" true ].

(** A table created without columns, [CREATE TABLE audit ();]. *)
Definition audit : Table := mk_table "audit" [].

Definition catalog : Catalog := [users; audit].

(** The sample server yields no row for a statement the catalog does
    not answer. *)
Definition no_rows : Database := fun _ => Ok [].

(** A process that has not created its pool yet, and one that has. *)
Definition fresh : World :=
  mk_world None true (postgres catalog no_rows) [] [] [].

Definition the_pool : Pool := mk_pool 0 2 10.

Definition serving : World :=
  mk_world (Some the_pool) true (postgres catalog no_rows) [the_pool] []
           [mk_stmt "SELECT version();" []].

(** A process that has closed its first pool. *)
Definition reopening : World :=
  mk_world None true (postgres catalog no_rows) [the_pool] [the_pool]
           [mk_stmt "SELECT version();" []].

(** A process that cannot reach its server. *)
Definition cut_off : World :=
  mk_world None false (postgres catalog no_rows) [] [] [].

(** A serving process whose server knows no relation [nowhere]. *)
Definition refusing : World :=
  mk_world (Some the_pool) true
    (postgres catalog
       (fun s => if String.eqb (sql_text s) "SELECT * FROM nowhere"
                 then Raise (UndefinedTableError "nowhere")
                 else Ok []))
    [the_pool] [] [mk_stmt "SELECT version();" []].

(** An engine of the original server that answers every statement with
    no row. *)
Definition engine : ServerV1.Engine :=
  ServerV1.mk_engine (fun _ => Ok []) (fun _ => Ok []) [].

(** The rows of the table [users] of a SQLite database, and the
    columns its inspector reports. *)
Definition users_rows : list pydict :=
  [ [("id", PInt 1); ("name", PStr "ann")];
    [("id", PInt 2); ("name", PNone)];
    [("id", PInt 3); ("name", PStr "bob")] ].

Definition users_columns : list pydict :=
  [ [("name", PStr "id"); ("type", PStr "INTEGER"); ("nullable", PBool false)];
    [("name", PStr "name"); ("type", PStr "VARCHAR"); ("nullable", PBool true)] ].

Fixpoint take {A} (n : Z) (l : list A) : list A :=
  match l with
  | [] => []
  | x :: r => if (n <=? 0)%Z then [] else x :: take (n - 1) r
  end.

Fixpoint drop {A} (n : Z) (l : list A) : list A :=
  match l with
  | [] => []
  | x :: r => if (n <=? 0)%Z then l else drop (n - 1) r
  end.

(** [LIMIT limit OFFSET offset] as SQLite reads it: a negative limit is
    no limit, a negative offset is none. *)
Definition page {A} (limit offset : Z) (rows : list A) : list A :=
  let rest := drop offset rows in
  if (limit <? 0)%Z then rest else take limit rest.

(** An engine of the original server on that database: it answers the
    count statement and the page statement for [users] and knows no
    other relation. *)
Definition shop : ServerV1.Engine :=
  ServerV1.mk_engine
    (fun s =>
       if String.eqb (ServerV1.text s) "SELECT COUNT(*) FROM users"
       then Ok [[("COUNT(*)", PInt 3)]]
       else if String.eqb (ServerV1.text s)
                 "SELECT * FROM users LIMIT :limit OFFSET :offset"
       then match ServerV1.params s with
            | [("limit", PInt limit); ("offset", PInt offset)] =>
                Ok (page limit offset users_rows)
            | _ => Raise DataError
            end
       else Raise OperationalError)
    (fun table_name =>
       if String.eqb table_name "users" then Ok users_columns
       else Raise (NoSuchTableError table_name))
    [].

(** The row of a join that selects the [id] of both tables. *)
Definition joined_row : PgRecord :=
  [ ("id", PInt 1); ("name", PStr "ann"); ("id", PInt 7) ].

(** A serving process whose database answers every statement with that
    one row. *)
Definition joined : World :=
  mk_world (Some the_pool) true (fun _ => Ok [joined_row]) [the_pool] [] [].

(** A row with a [bytea], a [date] and a [uuid] column next to the
    types the loops look for. *)
Definition mixed_row : PgRecord :=
  [ ("id", PInt 7);
    ("payload", PBytes "raw");
    ("born", PDate (mk_date 2001 2 3));
    ("token", PUUID 42);
    ("seen", PDatetime (mk_datetime 2024 1 5 9 3 7 0 (Some 0%Z)));
    ("price", PDecimal (DecFinite false 15 (-1))) ].

(** A serving process whose database answers every statement with
    that one row. *)
Definition mixed : World :=
  mk_world (Some the_pool) true (fun _ => Ok [mixed_row]) [the_pool] [] [].

End Sample.

(* ================================================================== *)
(** ** database_mcp_serverv2.py: the remaining tools and the entry point *)
(* ================================================================== *)

(** *** The process together with the disk *)

Module Host.
Import PyVal Eff Driver.

(** A [pandas.DataFrame] made from a list of mappings: one mapping per
    row, in order. *)
Definition DataFrame : Type := list pydict.

(** The server process with the disk it writes to: the paths that can
    be written, and the frames written so far, oldest first. *)
Record Host : Type := mk_host {
  world : World;
  writable : string -> bool;
  written : list (string * DataFrame)
}.

(** What ends a computation early: an exception of the process, or the
    [OSError] of a write that the disk refuses. *)
Inductive failure : Type :=
| Exception (e : exn)
| OSError (path : string).

Inductive outcome (A : Type) : Type :=
| Returned (a : A)
| Failed (f : failure).

Arguments Returned {A} a.
Arguments Failed {A} f.

Definition H (A : Type) : Type := Host -> outcome A * Host.

Definition hret {A} (a : A) : H A := fun h => (Returned a, h).

Definition hbind {A B} (m : H A) (k : A -> H B) : H B :=
  fun h =>
    match m h with
    | (Returned a, h') => k a h'
    | (Failed f, h') => (Failed f, h')
    end.

(** A computation of the process, run where the disk is in reach. *)
Definition of_world {A} (m : M World A) : H A :=
  fun h =>
    match m (world h) with
    | (Ok a, w') => (Returned a, mk_host w' (writable h) (written h))
    | (Raise e, w') => (Failed (Exception e), mk_host w' (writable h) (written h))
    end.

(** [df.to_csv(filename, index=False)]. *)
Definition to_csv (df : DataFrame) (filename : string) : H unit :=
  fun h =>
    if writable h filename
    then (Returned tt,
          mk_host (world h) (writable h) (written h ++ [(filename, df)]))
    else (Failed (OSError filename), h).

End Host.

Declare Scope host_scope.
Delimit Scope host_scope with host.
Notation "x <- m ;; k" := (Host.hbind m (fun x => k))
  (at level 61, m at next level, right associativity) : host_scope.
Notation "m ;;; k" := (Host.hbind m (fun _ => k))
  (at level 61, right associativity) : host_scope.

Module ServerV2Tools.
Import PyVal Eff Driver Host.

Definition export_envelope : pyval :=
  PDict [ ("success", PBool false);
          ("error", PStr "Only SELECT queries are allowed for export.") ].

(** [pd.DataFrame([dict(r) for r in rows])]; [dict(r)] reads the record
    through its keys, as the comprehension of the row loops does. *)
Definition data_frame (rows : list PgRecord) : DataFrame :=
  map ServerV2.dict_of_record rows.

Definition export_to_csv (sql filename : string) : H pyval :=
  if negb (truthy (ServerV2._is_safe_query sql)) then hret export_envelope
  else
    (rows <- of_world (_ <- ServerV2.init_db 2 10 ;; fetch sql [])%eff ;;
     let df := data_frame rows in
     to_csv df filename ;;;
     hret (PDict [ ("success", PBool true);
                   ("filename", PStr filename);
                   ("rows_exported", PInt (Z.of_nat (List.length df))) ]))%host.

Definition tables_sql : string := "
        SELECT table_name
        FROM information_schema.tables
        WHERE table_schema = 'public' AND table_type = 'BASE TABLE'
        ORDER BY table_name;
    ".

Definition list_tables : M World pyval :=
  (_ <- ServerV2.init_db 2 10 ;;
   rows <- fetch tables_sql [] ;;
   tables <- lift (traverse (fun r => ServerV2.getitem r "table_name") rows) ;;
   ret (PDict [ ("success", PBool true); ("tables", PList tables) ]))%eff.

(** A call that reaches the server: one of the three tools or one of
    the three resources, with its arguments. *)
Inductive request : Type :=
| ExecuteQuery (sql : string)
| ExportToCsv (sql filename : string)
| ListTables
| TableSchema (table_name : string)
| TableData (table_name : string) (limit offset : Z)
| TableStats (table_name : string).

Definition handle (r : request) : H pyval :=
  match r with
  | ExecuteQuery sql => of_world (ServerV2.execute_query sql)
  | ExportToCsv sql filename => export_to_csv sql filename
  | ListTables => of_world list_tables
  | TableSchema t => of_world (ServerV2.get_table_schema t)
  | TableData t limit offset => of_world (ServerV2.get_table_data t limit offset)
  | TableStats t => of_world (ServerV2.get_table_stats t)
  end.

(** [mcp.run_async(...)]: the requests are handled one after the other;
    a handler that fails yields an error answer and the server goes on.
    The run ends by returning, or by the exception [stop] (a
    cancellation, an interrupt). *)
Fixpoint run_async (requests : list request) (stop : option failure)
  : H (list (outcome pyval)) :=
  match requests with
  | [] =>
      match stop with
      | None => hret []
      | Some f => fun h => (Failed f, h)
      end
  | r :: rest =>
      fun h =>
        let (answer, h1) := handle r h in
        match run_async rest stop h1 with
        | (Returned answers, h2) => (Returned (answer :: answers), h2)
        | (Failed f, h2) => (Failed f, h2)
        end
  end.

(** The answers a run owes: for each request in turn, the outcome of
    its handler on the state the earlier requests left. *)
Fixpoint replies (requests : list request) (h : Host) : list (outcome pyval) :=
  match requests with
  | [] => []
  | r :: rest => fst (handle r h) :: replies rest (snd (handle r h))
  end.

(** [main]: [try: init_db(); run_async(...) finally: close_db()]. *)
Definition main (requests : list request) (stop : option failure)
  : H (list (outcome pyval)) :=
  fun h =>
    let (r, h1) :=
      (of_world (ServerV2.init_db 2 10) ;;; run_async requests stop)%host h in
    match of_world ServerV2.close_db h1 with
    | (Returned _, h2) => (r, h2)
    | (Failed f, h2) => (Failed f, h2)
    end.

(** The pool the global holds, if any. *)
Definition current (w : World) : list Pool :=
  match _db_pool w with
  | Some p => [p]
  | None => []
  end.

(** Every pool created is closed or is the one in the global; pools are
    numbered in the order of their creation. *)
Definition pools_accounted (w : World) : Prop :=
  created w = (closed w ++ current w)%list
  /\ map pool_id (created w) = seq 0 (List.length (created w)).

(** A property of the process that a computation keeps. *)
Definition keeps (P : World -> Prop) {A} (m : M World A) : Prop :=
  forall w, P w -> P (snd (m w)).

(** The text has no token: it is empty or all whitespace. *)
Fixpoint allspace (s : string) : bool :=
  match s with
  | EmptyString => true
  | String c r => PyStr.isspace c && allspace r
  end.

End ServerV2Tools.

(** *** Values in the ranges [datetime] keeps *)

Module Calendar.
Import PyVal.

(** The bounds every [datetime] object satisfies: the fields within
    their calendar ranges, the offset strictly within a day. *)
Definition in_range (d : datetime) : bool :=
  ((1 <=? year d) && (year d <=? 9999)
   && (1 <=? month d) && (month d <=? 12)
   && (1 <=? day d) && (day d <=? 31)
   && (hour d <? 24) && (minute d <? 60) && (second d <? 60)
   && (microsecond d <? 1000000))%N
  && match utcoffset d with
     | None => true
     | Some o => ((-86400 <? o) && (o <? 86400))%Z
     end.

End Calendar.

(** *** The original server: columns as the inspector gives them *)

Module ServerV1Tools.
Import PyVal.

(** The mapping has the three fields [get_table_schema] reads. *)
Definition has_fields (col : pydict) : bool :=
  match dict_get col "name", dict_get col "type", dict_get col "nullable" with
  | Some _, Some _, Some _ => true
  | _, _, _ => false
  end.

End ServerV1Tools.

(* ================================================================== *)
(** ** gemini_client.py: the console loop *)
(* ================================================================== *)

Module GeminiClient.

(** What [agent_executor.ainvoke] does with one input: it answers, or
    it raises an exception of its own. *)
Inductive reply : Type :=
| Answer (output : string)
| Raised.

(** What the console gives to one [input("> ")]: a line, together with
    what the agent would do with it.  Keyboard interrupts are not part
    of a script. *)
Inductive console : Type :=
| Line (user_input : string) (r : reply).

Inductive ending : Type :=
| ShutDown
| Crashed.

(** The run of [main] after the client is ready: the texts printed, the
    inputs handed to the agent, and how the run ends. *)
Record transcript : Type := mk_transcript {
  printed : list string;
  asked : list string;
  ends : ending
}.

Definition is_exit (user_input : string) : bool :=
  PyStr.mem (PyStr.lower user_input) ["exit"; "quit"].

Definition newline : string := String (ascii_of_N 10) EmptyString.

Definition shutting_down : string := newline ++ "Client shutting down.".

(** The [while True] loop on a script of typed lines; at the end of the
    script [input] raises [EOFError], which nothing catches, as nothing
    catches what the agent raises. *)
Fixpoint loop (script : list console) : transcript :=
  match script with
  | [] => mk_transcript [] [] Crashed
  | Line user_input r :: rest =>
      if is_exit user_input then mk_transcript [shutting_down] [] ShutDown
      else
        match r with
        | Answer output =>
            let t := loop rest in
            mk_transcript (output :: printed t) (user_input :: asked t) (ends t)
        | Raised => mk_transcript [] [user_input] Crashed
        end
  end.

Definition main (script : list console) : transcript :=
  let t := loop script in
  mk_transcript ("Gemini client is ready. Enter your requests." :: printed t)
                (asked t) (ends t).

(** The lines of a script that the agent answers, none of them an exit
    command. *)
Fixpoint answered (script : list console) : bool :=
  match script with
  | [] => true
  | Line user_input (Answer _) :: rest => negb (is_exit user_input) && answered rest
  | _ => false
  end.

Definition line_of (c : console) : list string :=
  match c with
  | Line user_input _ => [user_input]
  end.

Definition output_of (c : console) : list string :=
  match c with
  | Line _ (Answer output) => [output]
  | _ => []
  end.

End GeminiClient.

(* ================================================================== *)
(** * Properties *)
(* ================================================================== *)

(** ** Tokens of a text *)

Module PyStrFacts.
Import PyStr.

Lemma app_assoc_s (a b c : string) : (a ++ b) ++ c = a ++ (b ++ c).
Proof. induction a as [|x a IH]; simpl; [reflexivity | now rewrite IH]. Qed.

Lemma app_empty_r (a : string) : a ++ EmptyString = a.
Proof. induction a as [|x a IH]; simpl; [reflexivity | now rewrite IH]. Qed.

Lemma isspace_lower_char (c : ascii) : isspace (lower_char c) = isspace c.
Proof. destruct c as [[] [] [] [] [] [] [] []]; reflexivity. Qed.

Lemma lower_app (a b : string) : lower (a ++ b) = lower a ++ lower b.
Proof. induction a as [|x a IH]; simpl; [reflexivity | now rewrite IH]. Qed.

Lemma nospace_lower (s : string) : nospace (lower s) = nospace s.
Proof.
  induction s as [|c s IH]; simpl; [reflexivity|].
  now rewrite isspace_lower_char, IH.
Qed.

Lemma nospace_app (a b : string) :
  nospace (a ++ b) = nospace a && nospace b.
Proof.
  induction a as [|c a IH]; simpl; [reflexivity|].
  now rewrite IH, andb_assoc.
Qed.

Lemma lower_empty_inv (s : string) : lower s = EmptyString -> s = EmptyString.
Proof. destruct s; simpl; [reflexivity | discriminate]. Qed.

(** A lower-cased text splits where its source does. *)
Lemma lower_app_inv (a b s : string) :
  lower s = a ++ b ->
  exists a' b', s = a' ++ b' /\ lower a' = a /\ lower b' = b.
Proof.
  revert s; induction a as [|x a IH]; intros s H.
  - exists EmptyString, s; auto.
  - destruct s as [|c s]; simpl in H; [discriminate|].
    injection H as Hc Hs.
    destruct (IH _ Hs) as (a' & b' & -> & Ha & Hb).
    exists (String c a'), b'; simpl; rewrite Ha, Hc; auto.
Qed.

Lemma flush_nonempty (cur : string) : cur <> EmptyString -> flush cur = [cur].
Proof. destruct cur; [congruence | reflexivity]. Qed.

(** A run without whitespace is collected into the current token. *)
Lemma split_from_nospace (w cur r : string) :
  nospace w = true -> split_from cur (w ++ r) = split_from (cur ++ w) r.
Proof.
  revert cur; induction w as [|c w IH]; intros cur H; simpl.
  - now rewrite app_empty_r.
  - simpl in H; apply andb_true_iff in H as [Hc Hw].
    apply negb_true_iff in Hc; rewrite Hc, (IH _ Hw), app_assoc_s.
    reflexivity.
Qed.

(** A whitespace character cuts the scan in two independent scans. *)
Lemma split_from_space (a : string) (c : ascii) (r cur : string) :
  isspace c = true ->
  split_from cur (a ++ String c r)
  = (split_from cur a ++ split_from EmptyString r)%list.
Proof.
  intros Hc; revert cur; induction a as [|x a IH]; intros cur; simpl.
  - now rewrite Hc.
  - destruct (isspace x); [|apply IH].
    now rewrite IH, app_assoc.
Qed.

Lemma split_from_token (w post : string) :
  w <> EmptyString -> nospace w = true -> right_boundary post ->
  In w (split_from EmptyString (w ++ post)).
Proof.
  intros Hne Hw Hpost.
  rewrite (split_from_nospace _ _ _ Hw); simpl.
  destruct Hpost as [-> | (c & r & -> & Hc)]; simpl.
  - rewrite (flush_nonempty _ Hne); now left.
  - rewrite Hc, (flush_nonempty _ Hne); now left.
Qed.

(** Every whitespace-delimited token of a text is among its tokens. *)
Lemma split_complete (w s : string) : standalone_token w s -> In w (split s).
Proof.
  intros (pre & post & -> & Hne & Hw & Hpre & Hpost); unfold split.
  destruct Hpre as [-> | (a & c & -> & Hc)]; simpl.
  - now apply split_from_token.
  - rewrite app_assoc_s; simpl.
    rewrite (split_from_space _ _ _ _ Hc).
    apply in_or_app; right; now apply split_from_token.
Qed.

Lemma in_flush (t cur : string) : In t (flush cur) -> t = cur /\ cur <> EmptyString.
Proof.
  destruct cur; simpl; [tauto|].
  intros [<- | []]; split; [reflexivity | discriminate].
Qed.

(** What the scanner can emit: the token in progress extended by a run
    of the text, or a token that starts after some whitespace. *)
Lemma split_from_sound (s cur t : string) :
  In t (split_from cur s) ->
  (exists w post, s = w ++ post /\ t = cur ++ w /\ nospace w = true
                  /\ right_boundary post /\ t <> EmptyString)
  \/ (exists pre w post, s = pre ++ w ++ post /\ t = w /\ w <> EmptyString
                  /\ nospace w = true
                  /\ (exists a c, pre = a ++ String c EmptyString /\ isspace c = true)
                  /\ right_boundary post).
Proof.
  revert cur; induction s as [|c s IH]; intros cur H; simpl in H.
  - apply in_flush in H as [-> Hne]; left.
    exists EmptyString, EmptyString; simpl; rewrite app_empty_r.
    repeat split; auto. now left.
  - destruct (isspace c) eqn:Hc.
    + apply in_app_or in H as [H | H].
      * apply in_flush in H as [-> Hne]; left.
        exists EmptyString, (String c s); simpl; rewrite app_empty_r.
        repeat split; auto. right; eauto.
      * right. destruct (IH _ H) as
          [(w & post & -> & -> & Hw & Hp & Hne)
          |(pre & w & post & -> & -> & Hne & Hw & (a & c' & -> & Hc') & Hp)].
        -- exists (String c EmptyString), w, post; simpl.
           repeat split; auto. exists EmptyString, c; auto.
        -- exists (String c (a ++ String c' EmptyString)), w, post; simpl.
           repeat split; auto. exists (String c a), c'; auto.
    + destruct (IH _ H) as
        [(w & post & -> & -> & Hw & Hp & Hne)
        |(pre & w & post & -> & -> & Hne & Hw & (a & c' & -> & Hc') & Hp)].
      * left; exists (String c w), post; simpl.
        rewrite app_assoc_s in *; simpl in *; rewrite Hc.
        repeat split; auto.
      * right; exists (String c (a ++ String c' EmptyString)), w, post; simpl.
        repeat split; auto. exists (String c a), c'; auto.
Qed.

Lemma split_sound (t s : string) : In t (split s) -> standalone_token t s.
Proof.
  intros H; unfold split in H; destruct (split_from_sound _ _ _ H) as
    [(w & post & -> & -> & Hw & Hp & Hne)
    |(pre & w & post & -> & -> & Hne & Hw & Hpre & Hp)].
  - exists EmptyString, post; simpl in *. repeat split; auto. now left.
  - exists pre, post. repeat split; auto. now right.
Qed.

(** [split] yields exactly the whitespace-delimited tokens. *)
Lemma split_spec (t s : string) : In t (split s) <-> standalone_token t s.
Proof. split; [apply split_sound | apply split_complete]. Qed.

Lemma left_boundary_lower (p : string) :
  left_boundary (lower p) <-> left_boundary p.
Proof.
  split.
  - intros [H | (a & c & H & Hc)].
    + left; now apply lower_empty_inv.
    + right. apply lower_app_inv in H as (a' & x & -> & Ha & Hx).
      destruct x as [|c0 [|? ?]]; simpl in Hx; try discriminate.
      injection Hx as Hx; subst c.
      rewrite isspace_lower_char in Hc; eauto.
  - intros [-> | (a & c & -> & Hc)]; [now left|right].
    exists (lower a), (lower_char c); rewrite lower_app; simpl.
    now rewrite isspace_lower_char.
Qed.

Lemma right_boundary_lower (p : string) :
  right_boundary (lower p) <-> right_boundary p.
Proof.
  split.
  - intros [H | (c & r & H & Hc)].
    + left; now apply lower_empty_inv.
    + right. destruct p as [|c0 p]; simpl in H; [discriminate|].
      injection H as Hx Hr; subst c.
      rewrite isspace_lower_char in Hc; eauto.
  - intros [-> | (c & r & -> & Hc)]; [now left|right].
    exists (lower_char c), (lower r); simpl.
    now rewrite isspace_lower_char.
Qed.

(** The tokens of the lower-cased text are the lower-cased tokens. *)
Lemma split_lower_spec (k s : string) :
  In k (split (lower s)) <-> exists w, lower w = k /\ standalone_token w s.
Proof.
  rewrite split_spec; split.
  - intros (pre & post & H & Hne & Hk & Hpre & Hpost).
    apply lower_app_inv in H as (p & rest & -> & <- & H).
    apply lower_app_inv in H as (w & q & -> & <- & <-).
    exists w; split; [reflexivity|].
    exists p, q; repeat split.
    + intros ->; now apply Hne.
    + now rewrite nospace_lower in Hk.
    + now apply left_boundary_lower.
    + now apply right_boundary_lower.
  - intros (w & <- & pre & post & -> & Hne & Hw & Hpre & Hpost).
    exists (lower pre), (lower post); rewrite !lower_app; repeat split.
    + intros H; now apply lower_empty_inv in H.
    + now rewrite nospace_lower.
    + now apply left_boundary_lower.
    + now apply right_boundary_lower.
Qed.

Lemma mem_In (x : string) (xs : list string) : mem x xs = true <-> In x xs.
Proof.
  unfold mem; rewrite existsb_exists; split.
  - intros (y & Hy & E); apply String.eqb_eq in E; now subst.
  - intros H; exists x; split; [assumption | apply String.eqb_refl].
Qed.

End PyStrFacts.

(** ** The query safety gate *)

Section Gate.
Import PyVal Eff Driver PyStr PyStrFacts.

Lemma denied_reflect (sql : string) :
  existsb (fun k => mem k (split (lower sql))) ServerV2._DENIED_KEYWORDS = true
  <-> ServerV2.has_denied_token sql.
Proof.
  rewrite existsb_exists; split.
  - intros (k & Hk & Hm). apply mem_In, split_lower_spec in Hm.
    destruct Hm as (w & <- & Hw). now exists w.
  - intros (w & Hk & Hw). exists (lower w); split; [assumption|].
    apply mem_In, split_lower_spec. now exists w.
Qed.

Lemma tokens_nonempty (sql : string) :
  ServerV2.has_token sql -> split (lower sql) <> [].
Proof.
  intros (w & Hw) E.
  assert (H : In (lower w) (split (lower sql)))
    by (apply split_lower_spec; now exists w).
  rewrite E in H; exact H.
Qed.

Lemma denied_has_token (sql : string) :
  ServerV2.has_denied_token sql -> ServerV2.has_token sql.
Proof. intros (w & _ & Hw); now exists w. Qed.

(** The value the gate returns, case by case. *)
Lemma is_safe_query_cases (sql : string) :
  ServerV2.has_token sql ->
  ServerV2._is_safe_query sql
  = PBool (negb (existsb (fun k => mem k (split (lower sql)))
                         ServerV2._DENIED_KEYWORDS)).
Proof.
  intros H; apply tokens_nonempty in H; unfold ServerV2._is_safe_query.
  destruct (split (lower sql)); [congruence | reflexivity].
Qed.

(** The gate turns a text down in two cases only: it has no token, or
    one of its tokens is a denied keyword. *)
Lemma gate_rejects_iff (sql : string) :
  truthy (ServerV2._is_safe_query sql) = false
  <-> (~ ServerV2.has_token sql \/ ServerV2.has_denied_token sql).
Proof.
  destruct (split (lower sql)) as [|t ts] eqn:E.
  - unfold ServerV2._is_safe_query; rewrite E; simpl. split; [|reflexivity].
    intros _; left; intros H. now apply tokens_nonempty in H.
  - assert (Ht : ServerV2.has_token sql).
    { assert (H : In t (split (lower sql))) by (rewrite E; now left).
      apply split_lower_spec in H as (w & _ & Hw). now exists w. }
    rewrite (is_safe_query_cases _ Ht); cbn [truthy].
    rewrite negb_false_iff, denied_reflect. tauto.
Qed.

End Gate.

(** C1.  A text in which a denied keyword (insert, update, delete, drop,
    truncate, alter) stands as a whitespace-delimited token, in any
    letter case, is classified unsafe by the gate of the PostgreSQL
    server, and [execute_query] answers with the error envelope without
    touching the state.  A text that has a token, none of which is a
    denied keyword, is classified safe: a keyword inside a larger token
    does not count. *)
Theorem denied_token_rejected (sql : string) :
  (ServerV2.has_denied_token sql ->
     ServerV2._is_safe_query sql = PyVal.PBool false
     /\ forall w, ServerV2.execute_query sql w
                  = (Eff.Ok ServerV2.unsafe_envelope, w))
  /\ (ServerV2.has_token sql -> ~ ServerV2.has_denied_token sql ->
      ServerV2._is_safe_query sql = PyVal.PBool true).
Proof.
  split.
  - intros H.
    assert (E : ServerV2._is_safe_query sql = PyVal.PBool false).
    { rewrite (is_safe_query_cases _ (denied_has_token _ H)).
      apply denied_reflect in H; now rewrite H. }
    split; [exact E|].
    intros w; unfold ServerV2.execute_query; now rewrite E.
  - intros Ht Hn. rewrite (is_safe_query_cases _ Ht).
    destruct (existsb _ _) eqn:E; [|reflexivity].
    apply denied_reflect in E; contradiction.
Qed.

Lemma denied_token_rejected_witness :
  ServerV2._is_safe_query "  DROP TABLE users;" = PyVal.PBool false
  /\ ServerV2._is_safe_query "SELECT * FROM dropped_items" = PyVal.PBool true.
Proof.
  split.
  - apply (proj1 (denied_token_rejected "  DROP TABLE users;")).
    exists "DROP"; split; [simpl; tauto|].
    exists "  ", " TABLE users;"; repeat split; try discriminate.
    + right; exists " ", " "%char; split; reflexivity.
    + right; exists " "%char, "TABLE users;"; split; reflexivity.
  - apply (proj2 (denied_token_rejected "SELECT * FROM dropped_items")).
    + exists "SELECT", EmptyString, " * FROM dropped_items".
      repeat split; try discriminate; [now left|].
      right; exists " "%char, "* FROM dropped_items"; split; reflexivity.
    + intros H; apply denied_reflect in H; vm_compute in H; discriminate.
Defined.

Lemma original_gate_true (sql : string) : ServerV1._is_safe_query sql = true.
Proof.
  unfold ServerV1._is_safe_query.
  repeat match goal with |- context [if ?b then _ else _] => destruct b end;
  reflexivity.
Qed.

(** C2.  The gate of the original server answers [True] for every text,
    whatever its keyword tests find; so [execute_query] hands every text
    to the session. *)
Theorem original_gate_permits_all (sql : string) :
  ServerV1._is_safe_query sql = true
  /\ forall e,
       ServerV1.executed (snd (ServerV1.execute_query sql e))
       = (ServerV1.executed e ++ [ServerV1.mk_statement sql []])%list.
Proof.
  split; [apply original_gate_true|].
  intros e; unfold ServerV1.execute_query; rewrite original_gate_true; simpl.
  unfold Eff.bind, ServerV1.execute; simpl.
  destruct (ServerV1.run e _); reflexivity.
Qed.

(** C3.  A statement that creates a table passes the gate of the
    PostgreSQL server and is sent to the database. *)
Theorem create_table_passes_gate :
  ServerV2._is_safe_query "CREATE TABLE evil (id int)" = PyVal.PBool true
  /\ In (Driver.mk_stmt "CREATE TABLE evil (id int)" [])
        (Driver.sent (snd (ServerV2.execute_query "CREATE TABLE evil (id int)"
                                                  Sample.serving))).
Proof.
  split; [reflexivity|].
  vm_compute. right; left; reflexivity.
Qed.

(** ** The connection pool *)

Section PoolFacts.
Import PyVal Eff Driver.

(** With the pool in place [init_db] is a read of the global. *)
Lemma init_db_initialised (w : World) (p : Pool) (lo hi : Z) :
  _db_pool w = Some p -> ServerV2.init_db lo hi w = (Ok p, w).
Proof. intros H; unfold ServerV2.init_db; now rewrite H. Qed.

(** A call that returns a pool leaves that pool in the global. *)
Lemma init_db_sets_global (w w' : World) (p : Pool) (lo hi : Z) :
  ServerV2.init_db lo hi w = (Ok p, w') -> _db_pool w' = Some p.
Proof.
  unfold ServerV2.init_db.
  destruct (_db_pool w) as [q|] eqn:E.
  - intros H; injection H as <- <-; exact E.
  - unfold bind, create_pool, set_db_pool, fetchval, bind, fetch, ret.
    destruct (reachable w); simpl; [|discriminate].
    destruct (backend w _); simpl; [|discriminate].
    intros H; injection H as <- <-; reflexivity.
Qed.

(** [init_db] creates at most one pool, and none when one is there. *)
Lemma init_db_created (w : World) (lo hi : Z) :
  created (snd (ServerV2.init_db lo hi w))
  = match _db_pool w with
    | Some _ => created w
    | None =>
        if reachable w
        then (created w ++ [mk_pool (List.length (created w)) lo hi])%list
        else created w
    end.
Proof.
  unfold ServerV2.init_db.
  destruct (_db_pool w); [reflexivity|].
  unfold bind, create_pool, set_db_pool, fetchval, bind, fetch, ret.
  destruct (reachable w); simpl; [|reflexivity].
  destruct (backend w _); reflexivity.
Qed.

End PoolFacts.

(** A handler run on a process with its pool begins with a read of the
    global: [pool_ready w] steps over that first [init_db]. *)
Ltac pool_ready w :=
  let p := fresh "p" in
  let E := fresh "E" in
  destruct (Driver._db_pool w) as [p|] eqn:E; [|congruence];
  unfold Eff.bind at 1;
  rewrite (init_db_initialised _ _ _ _ E).

(** C7.  Once the pool is initialised, a further call of [init_db],
    with whatever sizes, returns that same pool and leaves the whole
    state as it was: no pool is created, no statement is sent.  In
    particular the call that follows a successful first call returns the
    pool of the first call. *)
Theorem init_db_idempotent (w : Driver.World) (p : Driver.Pool)
    (lo hi lo' hi' : Z) :
  (Driver._db_pool w = Some p ->
     ServerV2.init_db lo hi w = (Eff.Ok p, w))
  /\ (forall w', ServerV2.init_db lo hi w = (Eff.Ok p, w') ->
        ServerV2.init_db lo' hi' w' = (Eff.Ok p, w')
        /\ Driver.created (snd (ServerV2.init_db lo' hi' w')) = Driver.created w').
Proof.
  split.
  - apply init_db_initialised.
  - intros w' H. apply init_db_sets_global in H.
    rewrite (init_db_initialised _ _ _ _ H). split; reflexivity.
Qed.

Lemma init_db_idempotent_witness :
  ServerV2.init_db 5 20 Sample.serving = (Eff.Ok Sample.the_pool, Sample.serving)
  /\ ServerV2.init_db 5 20 (snd (ServerV2.init_db 2 10 Sample.fresh))
     = ServerV2.init_db 2 10 Sample.fresh.
Proof.
  split.
  - apply (proj1 (init_db_idempotent Sample.serving Sample.the_pool 5 20 0 0)).
    reflexivity.
  - apply (proj2 (init_db_idempotent Sample.fresh Sample.the_pool 2 10 5 20)).
    reflexivity.
Defined.


(** ** The statements of the original server *)

(** The statements of the original server's data and stats handlers. *)
Lemma original_data_statement (e : ServerV1.Engine) (table_name : string)
    (limit offset : Z) :
  ServerV1.executed (snd (ServerV1.get_table_data table_name limit offset e))
  = (ServerV1.executed e
     ++ [ServerV1.mk_statement
           ("SELECT * FROM " ++ table_name ++ " LIMIT :limit OFFSET :offset")
           [("limit", PyVal.PInt limit); ("offset", PyVal.PInt offset)]])%list.
Proof.
  unfold ServerV1.get_table_data, Eff.bind, ServerV1.execute; simpl.
  destruct (ServerV1.run e _); reflexivity.
Qed.

Lemma original_stats_statement (e : ServerV1.Engine) (table_name : string) :
  ServerV1.executed (snd (ServerV1.get_table_stats table_name e))
  = (ServerV1.executed e
     ++ [ServerV1.mk_statement ("SELECT COUNT(*) FROM " ++ table_name) []])%list.
Proof.
  unfold ServerV1.get_table_stats, Eff.bind, ServerV1.execute,
    ServerV1.get_columns; simpl.
  destruct (ServerV1.run e _); [|reflexivity]. simpl.
  destruct (ServerV1.columns_of e _); reflexivity.
Qed.

(** C4.  The data and stats handlers of the original server put the
    table name into the statement text as it comes, between the fixed
    parts of the text and without any quoting; a name that carries SQL
    of its own becomes part of the statement.  Limit and offset travel
    as the named bind parameters. *)
Theorem original_embeds_raw_name :
  (forall e table_name limit offset,
     ServerV1.executed (snd (ServerV1.get_table_data table_name limit offset e))
     = (ServerV1.executed e
        ++ [ServerV1.mk_statement
              ("SELECT * FROM " ++ table_name ++ " LIMIT :limit OFFSET :offset")
              [("limit", PyVal.PInt limit); ("offset", PyVal.PInt offset)]])%list)
  /\ (forall e table_name,
       ServerV1.executed (snd (ServerV1.get_table_stats table_name e))
       = (ServerV1.executed e
          ++ [ServerV1.mk_statement ("SELECT COUNT(*) FROM " ++ table_name) []])%list)
  /\ ServerV1.executed
       (snd (ServerV1.get_table_data "users UNION SELECT * FROM secrets --" 10 0
                                     Sample.engine))
     = [ServerV1.mk_statement
          "SELECT * FROM users UNION SELECT * FROM secrets -- LIMIT :limit OFFSET :offset"
          [("limit", PyVal.PInt 10); ("offset", PyVal.PInt 0)]]
  /\ ServerV1.executed
       (snd (ServerV1.get_table_stats "users WHERE 1 = 0 UNION SELECT 1" Sample.engine))
     = [ServerV1.mk_statement
          "SELECT COUNT(*) FROM users WHERE 1 = 0 UNION SELECT 1" []].
Proof.
  split; [exact original_data_statement|].
  split; [exact original_stats_statement|].
  split; reflexivity.
Qed.

(** C8, as stated, fails: the original server hands a negative limit
    and a limit of a million millions to the session as they come; on a
    table of three rows the negative limit yields all of them. *)
Lemma original_limit_not_checked :
  ServerV1.get_table_data "users" (-5) 0 Sample.shop
  = (Eff.Ok (PyVal.PDict [ ("table_name", PyVal.PStr "users");
                           ("sample_data",
                            PyVal.PList (map PyVal.PDict Sample.users_rows));
                           ("rows_returned", PyVal.PInt 3) ]),
     ServerV1.mk_engine (ServerV1.run Sample.shop)
       (ServerV1.columns_of Sample.shop)
       [ServerV1.mk_statement "SELECT * FROM users LIMIT :limit OFFSET :offset"
          [("limit", PyVal.PInt (-5)); ("offset", PyVal.PInt 0)]])
  /\ ServerV1.executed
       (snd (ServerV1.get_table_data "users" 1000000000000 0 Sample.shop))
     = [ServerV1.mk_statement "SELECT * FROM users LIMIT :limit OFFSET :offset"
          [("limit", PyVal.PInt 1000000000000); ("offset", PyVal.PInt 0)]].
Proof. split; reflexivity. Qed.

(** C8.  [get_table_data] of the original server hands [limit] and
    [offset] to the session as they come, as the named bind parameters
    of its one statement, whatever their sign or size, and before any
    other step; it then returns the rows the session yields, with their
    number as [rows_returned], or ends with what the session raises: the
    handler itself neither clamps nor rejects. *)
Theorem original_limit_forwarded_as_given (e : ServerV1.Engine)
    (table_name : string) (limit offset : Z) :
  let s := ServerV1.mk_statement
             ("SELECT * FROM " ++ table_name ++ " LIMIT :limit OFFSET :offset")
             [("limit", PyVal.PInt limit); ("offset", PyVal.PInt offset)] in
  ServerV1.executed (snd (ServerV1.get_table_data table_name limit offset e))
  = (ServerV1.executed e ++ [s])%list
  /\ fst (ServerV1.get_table_data table_name limit offset e)
     = match ServerV1.run e s with
       | Eff.Ok rows =>
           Eff.Ok (PyVal.PDict
             [ ("table_name", PyVal.PStr table_name);
               ("sample_data", PyVal.PList (map PyVal.PDict rows));
               ("rows_returned", PyVal.PInt (Z.of_nat (List.length rows))) ])
       | Eff.Raise x => Eff.Raise x
       end.
Proof.
  intros s; split; [apply original_data_statement|].
  unfold ServerV1.get_table_data, Eff.bind, ServerV1.execute.
  fold s. cbv zeta. cbn [ServerV1.run].
  destruct (ServerV1.run e s) as [rows|x]; [|reflexivity].
  cbn [fst Eff.ret]. now rewrite length_map.
Qed.

(** ** The database on the column query *)

Module PostgresFacts.
Import PyVal Eff Driver Postgres.

Lemma postgres_columns (c : Catalog) (elsewhere : Database) (name : string) :
  fits_name name = true ->
  postgres c elsewhere (mk_stmt ServerV2.schema_sql [PStr name])
  = Ok (map column_row (columns_of c name)).
Proof.
  intros H. unfold postgres. cbv zeta. cbn [sql_text bind_args].
  change (String.eqb ServerV2.schema_sql "SELECT version();") with false.
  change (tokens_eqb (PyStr.split ServerV2.schema_sql) columns_query_tokens)
    with true.
  cbv iota. now rewrite H.
Qed.

Lemma column_entry_row (col : Column) :
  ServerV2.column_entry (column_row col) = Ok (ServerV2.descriptor col).
Proof. destruct col as [n t []]; reflexivity. Qed.

Lemma traverse_column_rows (cols : list Column) :
  traverse ServerV2.column_entry (map column_row cols)
  = Ok (map ServerV2.descriptor cols).
Proof.
  induction cols as [|col cols IH]; [reflexivity|].
  cbn [map traverse]. now rewrite column_entry_row, IH.
Qed.

(** The schema resource on a serving process. *)

Lemma serving_log_sent (c : Catalog) (w : World) (s : stmt) :
  ServerV2.serving c w -> ServerV2.serving c (log_sent s w).
Proof. intros [Hb Hp]; split; assumption. Qed.

Lemma get_table_schema_run (c : Catalog) (w : World) (name : string) :
  ServerV2.serving c w ->
  fits_name name = true ->
  ServerV2.get_table_schema name w
  = (Ok (PDict [ ("table_name", PStr name);
                 ("columns", PList (map ServerV2.descriptor (columns_of c name))) ]),
     log_sent (mk_stmt ServerV2.schema_sql [PStr name]) w).
Proof.
  intros [[elsewhere Hb] Hp] Hn. unfold ServerV2.get_table_schema. pool_ready w.
  unfold bind at 1, fetch. rewrite Hb, postgres_columns by exact Hn.
  unfold bind, lift. rewrite traverse_column_rows. reflexivity.
Qed.

(** The data and stats resources end at [quote_ident]. *)

Lemma get_table_data_stops (name : string) (limit offset : Z) (w : World) :
  ServerV2.get_table_data name limit offset w
  = match ServerV2.init_db 2 10 w with
    | (Ok _, w1) => (Raise (AttributeError "quote_ident"), w1)
    | (Raise e, w1) => (Raise e, w1)
    end.
Proof.
  unfold ServerV2.get_table_data, bind.
  destruct (ServerV2.init_db 2 10 w) as [[p|e] w1]; reflexivity.
Qed.

Lemma get_table_stats_stops (name : string) (w : World) :
  ServerV2.get_table_stats name w
  = match ServerV2.init_db 2 10 w with
    | (Ok _, w1) => (Raise (AttributeError "quote_ident"), w1)
    | (Raise e, w1) => (Raise e, w1)
    end.
Proof.
  unfold ServerV2.get_table_stats, bind.
  destruct (ServerV2.init_db 2 10 w) as [[p|e] w1]; reflexivity.
Qed.

End PostgresFacts.

(** ** Tables present in and absent from the catalog *)




(** C9, as stated, fails: a table of the catalog that was created
    without columns has an empty column sequence. *)
Lemma present_table_without_columns :
  Postgres.in_catalog Sample.catalog "audit" = true
  /\ fst (ServerV2.get_table_schema "audit" Sample.serving)
     = Eff.Ok (PyVal.PDict [ ("table_name", PyVal.PStr "audit");
                             ("columns", PyVal.PList []) ]).
Proof. split; reflexivity. Qed.

(** C9.  For a table of the catalog, on a serving process of the
    PostgreSQL server, the schema resource returns one descriptor per
    catalog column, in ordinal order: the sequence has the length of the
    table's column list, and it is empty exactly when the table has no
    column. *)
Theorem schema_lists_catalog_columns (c : Postgres.Catalog) (w : Driver.World)
    (name : string) (t : Postgres.Table) :
  ServerV2.serving c w ->
  Postgres.fits_name name = true ->
  Postgres.find_table c name = Some t ->
  exists columns : list PyVal.pyval,
    fst (ServerV2.get_table_schema name w)
    = Eff.Ok (PyVal.PDict [ ("table_name", PyVal.PStr name);
                            ("columns", PyVal.PList columns) ])
    /\ columns = map ServerV2.descriptor (Postgres.table_columns t)
    /\ List.length columns = List.length (Postgres.table_columns t)
    /\ (columns = [] <-> Postgres.table_columns t = []).
Proof.
  intros Hs Hn Ht.
  exists (map ServerV2.descriptor (Postgres.table_columns t)).
  split; [|split; [reflexivity|split]].
  - rewrite (PostgresFacts.get_table_schema_run c _ _ Hs Hn).
    unfold Postgres.columns_of; now rewrite Ht.
  - apply length_map.
  - destruct (Postgres.table_columns t); simpl; split; congruence.
Qed.

Lemma schema_lists_catalog_columns_witness :
  exists columns : list PyVal.pyval,
    fst (ServerV2.get_table_schema "users" Sample.serving)
    = Eff.Ok (PyVal.PDict [ ("table_name", PyVal.PStr "users");
                            ("columns", PyVal.PList columns) ])
    /\ columns
       = [ PyVal.PDict [ ("name", PyVal.PStr "id"); ("type", PyVal.PStr "integer");
                         ("nullable", PyVal.PBool false) ];
           PyVal.PDict [ ("name", PyVal.PStr "name"); ("type", PyVal.PStr "text");
                         ("nullable", PyVal.PBool true) ] ].
Proof.
  assert (Hs : ServerV2.serving Sample.catalog Sample.serving)
    by (split; [exists Sample.no_rows; reflexivity | discriminate]).
  destruct (schema_lists_catalog_columns Sample.catalog Sample.serving "users"
              Sample.users Hs eq_refl eq_refl) as (columns & H1 & H2 & _).
  exists columns; split; [exact H1 | exact H2].
Defined.

(** ** Row serialisation *)

Module RowFacts.
Import PyVal Eff Driver PyStr.

Lemma eqb_sym_s (a b : string) : String.eqb a b = String.eqb b a.
Proof.
  destruct (String.eqb a b) eqn:E.
  - apply String.eqb_eq in E; subst; symmetry; apply String.eqb_refl.
  - destruct (String.eqb b a) eqn:E'; [|reflexivity].
    apply String.eqb_eq in E'; subst; now rewrite String.eqb_refl in E.
Qed.

Lemma mem_app (x : string) (a b : list string) :
  mem x (a ++ b)%list = mem x a || mem x b.
Proof. apply existsb_app. Qed.

Lemma mem_false (x : string) (l : list string) : mem x l = false <-> ~ In x l.
Proof.
  rewrite <- PyStrFacts.mem_In. destruct (mem x l); split; congruence.
Qed.

(** *** Dictionaries *)

Lemma dict_keys_set (d : pydict) (k : string) (v : pyval) :
  dict_keys (dict_set d k v) = add_key (dict_keys d) k.
Proof.
  unfold add_key, dict_keys, mem.
  induction d as [|[k' v'] d IH]; [reflexivity|].
  simpl. rewrite (eqb_sym_s k k').
  destruct (String.eqb k' k); simpl; [reflexivity|].
  rewrite IH. now destruct (existsb (String.eqb k) (map fst d)).
Qed.

Lemma dict_get_set (d : pydict) (k k' : string) (v : pyval) :
  dict_get (dict_set d k v) k'
  = if String.eqb k k' then Some v else dict_get d k'.
Proof.
  induction d as [|[k0 v0] d IH]; simpl.
  - reflexivity.
  - destruct (String.eqb k0 k) eqn:E; simpl.
    + apply String.eqb_eq in E; subst k0. now destruct (String.eqb k k').
    + rewrite IH. destruct (String.eqb k0 k') eqn:E'; [|reflexivity].
      apply String.eqb_eq in E'; subst k0. now rewrite eqb_sym_s, E.
Qed.

Lemma dict_set_app_fresh (pre l : pydict) (k : string) (v : pyval) :
  ~ In k (dict_keys pre) ->
  dict_set (pre ++ l)%list k v = (pre ++ dict_set l k v)%list.
Proof.
  induction pre as [|[k0 v0] pre IH]; intros H; simpl; [reflexivity|].
  simpl in H. destruct (String.eqb k0 k) eqn:E.
  - apply String.eqb_eq in E; tauto.
  - rewrite IH; tauto.
Qed.

(** *** The comprehension over the record *)

Lemma record_get_none (r : PgRecord) (k : string) :
  record_get r k = None <-> ~ In k (record_keys r).
Proof.
  induction r as [|[k0 v0] r IH]; simpl; [tauto|].
  destruct (record_get r k) eqn:E.
  - split; [discriminate|]. intros H; exfalso; apply H; right.
    destruct (in_dec string_dec k (record_keys r)) as [i|n]; [exact i|].
    apply IH in n; discriminate.
  - destruct (String.eqb k0 k) eqn:E'.
    + apply String.eqb_eq in E'; split; [discriminate | tauto].
    + apply String.eqb_neq in E'. split; [|reflexivity].
      intros _ [H|H]; [congruence|]. now apply (proj1 IH).
Qed.

Lemma fold_step_keys (row : PgRecord) (ks : list string) (acc : pydict) :
  incl ks (record_keys row) ->
  dict_keys (fold_left (ServerV2.set_from row) ks acc) = fold_left add_key ks (dict_keys acc).
Proof.
  revert acc; induction ks as [|k ks IH]; intros acc H; [reflexivity|].
  simpl. rewrite IH by (intros x Hx; apply H; now right).
  f_equal. unfold ServerV2.set_from.
  destruct (record_get row k) eqn:E; [apply dict_keys_set|].
  apply record_get_none in E. elim E; apply H; now left.
Qed.

Lemma set_from_get (row : PgRecord) (acc : pydict) (k0 k : string) :
  dict_get (ServerV2.set_from row acc k0) k
  = if String.eqb k0 k then
      match record_get row k with Some v => Some v | None => dict_get acc k end
    else dict_get acc k.
Proof.
  unfold ServerV2.set_from. destruct (record_get row k0) eqn:E0.
  - rewrite dict_get_set. destruct (String.eqb k0 k) eqn:E; [|reflexivity].
    apply String.eqb_eq in E; subst k0. now rewrite E0.
  - destruct (String.eqb k0 k) eqn:E; [|reflexivity].
    apply String.eqb_eq in E; subst k0. now rewrite E0.
Qed.

Lemma fold_step_get (row : PgRecord) (ks : list string) (acc : pydict) (k : string) :
  dict_get (fold_left (ServerV2.set_from row) ks acc) k
  = if mem k ks then
      match record_get row k with Some v => Some v | None => dict_get acc k end
    else dict_get acc k.
Proof.
  revert acc; induction ks as [|k0 ks IH]; intros acc; [reflexivity|].
  simpl fold_left. rewrite IH, set_from_get. unfold mem; simpl existsb.
  rewrite (eqb_sym_s k k0).
  destruct (existsb (String.eqb k) ks), (String.eqb k0 k), (record_get row k);
    reflexivity.
Qed.

Lemma dict_of_record_get (row : PgRecord) (k : string) :
  dict_get (ServerV2.dict_of_record row) k = record_get row k.
Proof.
  unfold ServerV2.dict_of_record.
  rewrite fold_step_get. simpl dict_get.
  destruct (mem k (record_keys row)) eqn:E.
  - now destruct (record_get row k).
  - apply mem_false, record_get_none in E. now rewrite E.
Qed.

(** *** Keys at their first occurrence *)

Lemma filter_absorb {A} (p q : A -> bool) (l : list A) :
  (forall x, p x = true -> q x = true) ->
  filter p (filter q l) = filter p l.
Proof.
  intros H; induction l as [|x l IH]; simpl; [reflexivity|].
  destruct (q x) eqn:Eq; simpl; [now rewrite IH|].
  destruct (p x) eqn:Ep; [|exact IH]. apply H in Ep; congruence.
Qed.

Lemma filter_and {A} (p q : A -> bool) (l : list A) :
  filter p (filter q l) = filter (fun x => q x && p x) l.
Proof.
  induction l as [|x l IH]; simpl; [reflexivity|].
  destruct (q x); simpl; [|exact IH]. destruct (p x); now rewrite IH.
Qed.

Lemma filter_id {A} (p : A -> bool) (l : list A) :
  (forall x, In x l -> p x = true) -> filter p l = l.
Proof.
  induction l as [|x l IH]; intros H; simpl; [reflexivity|].
  rewrite (H x) by now left. f_equal; apply IH; intros; apply H; now right.
Qed.

Lemma fold_add_key (ks acc : list string) :
  fold_left add_key ks acc
  = (acc ++ filter (fun x => negb (mem x acc)) (ServerV2.first_occurrences ks))%list.
Proof.
  revert acc; induction ks as [|k ks IH]; intros acc; simpl.
  - now rewrite app_nil_r.
  - rewrite IH; unfold add_key. destruct (mem k acc) eqn:E; simpl.
    + f_equal; symmetry; apply filter_absorb.
      intros x Hx. apply negb_true_iff in Hx. apply negb_true_iff.
      destruct (String.eqb x k) eqn:Ex; [|reflexivity].
      apply String.eqb_eq in Ex; congruence.
    + rewrite <- app_assoc; simpl. do 2 f_equal.
      rewrite filter_and. apply filter_ext; intros x.
      rewrite mem_app; unfold mem at 2; simpl.
      rewrite orb_false_r, negb_orb. apply andb_comm.
Qed.

Lemma dict_of_record_keys (row : PgRecord) :
  dict_keys (ServerV2.dict_of_record row)
  = ServerV2.first_occurrences (record_keys row).
Proof.
  unfold ServerV2.dict_of_record.
  rewrite fold_step_keys by apply incl_refl.
  rewrite fold_add_key; simpl. now apply filter_id.
Qed.

Lemma first_occurrences_In (ks : list string) (x : string) :
  In x (ServerV2.first_occurrences ks) <-> In x ks.
Proof.
  induction ks as [|k ks IH]; simpl; [tauto|].
  rewrite filter_In, IH, negb_true_iff.
  destruct (String.eqb x k) eqn:E.
  - apply String.eqb_eq in E; subst; tauto.
  - apply String.eqb_neq in E. intuition congruence.
Qed.

Lemma first_occurrences_NoDup (ks : list string) :
  NoDup (ServerV2.first_occurrences ks).
Proof.
  induction ks as [|k ks IH]; simpl; constructor.
  - rewrite filter_In, String.eqb_refl; simpl; intros [_ H]; discriminate.
  - now apply NoDup_filter.
Qed.

Lemma first_occurrences_distinct (ks : list string) :
  NoDup ks -> ServerV2.first_occurrences ks = ks.
Proof.
  induction 1 as [|k ks Hk Hnd IH]; simpl; [reflexivity|].
  rewrite IH; f_equal. apply filter_id; intros x Hx.
  apply negb_true_iff, String.eqb_neq; congruence.
Qed.

(** *** The conversion loop *)

Lemma convert_items_from (l pre : pydict) :
  NoDup (dict_keys (pre ++ l)%list) ->
  fold_left ServerV2.convert_entry l (pre ++ l)%list
  = (pre ++ map (fun kv => (fst kv, ServerV2.serialized (snd kv))) l)%list.
Proof.
  revert pre; induction l as [|[k v] l IH]; intros pre Hnd; [reflexivity|].
  cbn [fold_left map fst snd]. unfold ServerV2.convert_entry at 2.
  cbn [fst snd].
  assert (Hk : ~ In k (dict_keys pre)).
  { unfold dict_keys in *; rewrite map_app in Hnd; simpl in Hnd.
    apply NoDup_remove_2 in Hnd. intros H; apply Hnd, in_or_app; now left. }
  assert (E : match ServerV2.converted v with
              | Some v' => dict_set (pre ++ (k, v) :: l)%list k v'
              | None => (pre ++ (k, v) :: l)%list
              end = ((pre ++ [(k, ServerV2.serialized v)]) ++ l)%list).
  { rewrite <- app_assoc; simpl. unfold ServerV2.serialized.
    destruct (ServerV2.converted v); [|reflexivity].
    rewrite dict_set_app_fresh by assumption. simpl.
    now rewrite String.eqb_refl. }
  rewrite E, IH.
  - now rewrite <- app_assoc.
  - unfold dict_keys in *; rewrite <- app_assoc; simpl.
    rewrite !map_app in *; simpl in *. exact Hnd.
Qed.

Lemma convert_items_map (d : pydict) :
  NoDup (dict_keys d) ->
  ServerV2.convert_items d
  = map (fun kv => (fst kv, ServerV2.serialized (snd kv))) d.
Proof. intros H; exact (convert_items_from d [] H). Qed.

Lemma process_row_map (row : PgRecord) :
  ServerV2.process_row row
  = map (fun kv => (fst kv, ServerV2.serialized (snd kv)))
        (ServerV2.dict_of_record row).
Proof.
  apply convert_items_map. rewrite dict_of_record_keys.
  apply first_occurrences_NoDup.
Qed.

Lemma dict_get_map (f : pyval -> pyval) (d : pydict) (k : string) :
  dict_get (map (fun kv => (fst kv, f (snd kv))) d) k
  = option_map f (dict_get d k).
Proof.
  induction d as [|[k0 v0] d IH]; simpl; [reflexivity|].
  now destruct (String.eqb k0 k).
Qed.

Lemma process_row_keys (row : PgRecord) :
  dict_keys (ServerV2.process_row row)
  = ServerV2.first_occurrences (record_keys row).
Proof.
  rewrite process_row_map. unfold dict_keys at 1.
  rewrite map_map; simpl. apply dict_of_record_keys.
Qed.

Lemma process_row_get (row : PgRecord) (k : string) :
  dict_get (ServerV2.process_row row) k
  = option_map ServerV2.serialized (record_get row k).
Proof. now rewrite process_row_map, dict_get_map, dict_of_record_get. Qed.

(** *** The tool that returns the rows *)

Lemma execute_query_rows (sql : string) (w : World) (rows : list PgRecord) :
  truthy (ServerV2._is_safe_query sql) = true ->
  _db_pool w <> None ->
  backend w (mk_stmt sql []) = Ok rows ->
  fst (ServerV2.execute_query sql w)
  = Ok (PDict [ ("success", PBool true);
                ("results", PList (map (fun r => PDict (ServerV2.process_row r)) rows)) ]).
Proof.
  intros Hs Hp Hb. unfold ServerV2.execute_query; rewrite Hs; simpl.
  pool_ready w.
  unfold bind, fetch; now rewrite Hb.
Qed.

End RowFacts.

(** C6, as stated, fails: a row with a [bytea], a [date] and a [uuid]
    value goes through [execute_query] without any error, and these
    three values are in the result as the driver gave them. *)
Lemma unsupported_values_pass_raw :
  fst (ServerV2.execute_query "SELECT * FROM events" Sample.mixed)
  = Eff.Ok (PyVal.PDict
      [ ("success", PyVal.PBool true);
        ("results",
         PyVal.PList
           [PyVal.PDict
              [ ("id", PyVal.PInt 7);
                ("payload", PyVal.PBytes "raw");
                ("born", PyVal.PDate (PyVal.mk_date 2001 2 3));
                ("token", PyVal.PUUID 42);
                ("seen", PyVal.PStr "2024-01-05T09:03:07+00:00");
                ("price", PyVal.PFloat (S754_finite false 6755399441055744 (-52))) ]]) ]).
Proof. reflexivity. Qed.

(** C6.  The row loop of [execute_query] has no failing branch: for a
    text that passes the gate, on a process with its pool, every answer
    of the database is turned into a success envelope; and a value of a
    type without conversion rule is emitted unchanged under its column
    name. *)
Theorem serialisation_passes_unsupported (sql : string) (w : Driver.World)
    (rows : list Driver.PgRecord) :
  PyVal.truthy (ServerV2._is_safe_query sql) = true ->
  Driver._db_pool w <> None ->
  Driver.backend w (Driver.mk_stmt sql []) = Eff.Ok rows ->
  fst (ServerV2.execute_query sql w)
  = Eff.Ok (PyVal.PDict
      [ ("success", PyVal.PBool true);
        ("results",
         PyVal.PList (map (fun r => PyVal.PDict (ServerV2.process_row r)) rows)) ])
  /\ forall row key v,
       In row rows ->
       Driver.record_get row key = Some v ->
       PyVal.has_conversion_rule v = false ->
       PyVal.dict_get (ServerV2.process_row row) key = Some v.
Proof.
  intros Hs Hp Hb; split.
  - now apply RowFacts.execute_query_rows.
  - intros row key v _ Hv Hr.
    rewrite RowFacts.process_row_get, Hv; simpl.
    now destruct v.
Qed.

Lemma serialisation_passes_unsupported_witness :
  PyVal.dict_get (ServerV2.process_row Sample.mixed_row) "payload"
  = Some (PyVal.PBytes "raw").
Proof.
  refine (proj2 (serialisation_passes_unsupported "SELECT * FROM events"
                   Sample.mixed [Sample.mixed_row] _ _ _)
            Sample.mixed_row "payload" (PyVal.PBytes "raw") _ _ _).
  - reflexivity.
  - discriminate.
  - reflexivity.
  - now left.
  - reflexivity.
  - reflexivity.
Defined.

(** The original server applies no conversion at all. *)
Lemma original_rows_untouched (sql : string) (e : ServerV1.Engine)
    (rows : list PyVal.pydict) :
  ServerV1.run e (ServerV1.mk_statement sql []) = Eff.Ok rows ->
  fst (ServerV1.execute_query sql e)
  = Eff.Ok (PyVal.PDict [ ("success", PyVal.PBool true);
                          ("results", PyVal.PList (map PyVal.PDict rows)) ]).
Proof.
  intros H. unfold ServerV1.execute_query.
  rewrite original_gate_true; simpl.
  unfold Eff.bind, ServerV1.execute; now rewrite H.
Qed.

(** C10, as stated, fails: the row of a join that selects [id] from
    both tables has three columns, and [execute_query] returns it with
    two, the first [id] holding the value of the last. *)
Lemma repeated_name_loses_column :
  Driver.record_keys Sample.joined_row = ["id"; "name"; "id"]
  /\ PyVal.dict_keys (ServerV2.process_row Sample.joined_row) = ["id"; "name"]
  /\ fst (ServerV2.execute_query
            "SELECT u.id, u.name, o.id FROM users u JOIN orders o ON o.user_id = u.id"
            Sample.joined)
     = Eff.Ok (PyVal.PDict
         [ ("success", PyVal.PBool true);
           ("results",
            PyVal.PList
              [PyVal.PDict [("id", PyVal.PInt 7); ("name", PyVal.PStr "ann")]]) ]).
Proof. repeat split. Qed.

(** C10.  The row loop of [execute_query]: under a column name the
    processed row holds the value the record gives for that name, as
    its ISO string when it is a datetime, as a float when it is a
    Decimal, and unchanged otherwise (None, bool, int, float, str and
    the rest); the row has the column names of the record, each once
    and at its first occurrence, hence the same set of names, and it
    has the very sequence of columns exactly when the names are
    distinct.  [execute_query] returns the rows so processed, in the
    order of the answer. *)
Theorem row_serialisation_frame (row : Driver.PgRecord) :
  (forall k v, Driver.record_get row k = Some v ->
               PyVal.is_datetime v = false -> PyVal.is_decimal v = false ->
               PyVal.dict_get (ServerV2.process_row row) k = Some v)
  /\ (forall k d, Driver.record_get row k = Some (PyVal.PDatetime d) ->
                  PyVal.dict_get (ServerV2.process_row row) k
                  = Some (PyVal.PStr (PyVal.isoformat d)))
  /\ (forall k d, Driver.record_get row k = Some (PyVal.PDecimal d) ->
                  PyVal.dict_get (ServerV2.process_row row) k
                  = Some (PyVal.PFloat (PyVal.float_of_decimal d)))
  /\ (forall k, Driver.record_get row k = None ->
                PyVal.dict_get (ServerV2.process_row row) k = None)
  /\ PyVal.dict_keys (ServerV2.process_row row)
     = ServerV2.first_occurrences (Driver.record_keys row)
  /\ (forall k, In k (PyVal.dict_keys (ServerV2.process_row row))
                <-> In k (Driver.record_keys row))
  /\ (PyVal.dict_keys (ServerV2.process_row row) = Driver.record_keys row
      <-> NoDup (Driver.record_keys row))
  /\ (forall sql w rows,
        PyVal.truthy (ServerV2._is_safe_query sql) = true ->
        Driver._db_pool w <> None ->
        Driver.backend w (Driver.mk_stmt sql []) = Eff.Ok rows ->
        fst (ServerV2.execute_query sql w)
        = Eff.Ok (PyVal.PDict
            [ ("success", PyVal.PBool true);
              ("results",
               PyVal.PList (map (fun r => PyVal.PDict (ServerV2.process_row r)) rows)) ])).
Proof.
  repeat apply conj.
  - intros k v Hv Hd Hc. rewrite RowFacts.process_row_get, Hv; simpl.
    destruct v; try reflexivity; discriminate.
  - intros k d Hv. now rewrite RowFacts.process_row_get, Hv.
  - intros k d Hv. now rewrite RowFacts.process_row_get, Hv.
  - intros k Hv. now rewrite RowFacts.process_row_get, Hv.
  - apply RowFacts.process_row_keys.
  - intros k; rewrite RowFacts.process_row_keys.
    apply RowFacts.first_occurrences_In.
  - rewrite RowFacts.process_row_keys.
    intros H; rewrite <- H. apply RowFacts.first_occurrences_NoDup.
  - rewrite RowFacts.process_row_keys.
    apply RowFacts.first_occurrences_distinct.
  - apply RowFacts.execute_query_rows.
Qed.

Lemma row_serialisation_frame_witness :
  PyVal.dict_get (ServerV2.process_row Sample.mixed_row) "id" = Some (PyVal.PInt 7)
  /\ PyVal.dict_get (ServerV2.process_row Sample.mixed_row) "seen"
     = Some (PyVal.PStr "2024-01-05T09:03:07+00:00")
  /\ PyVal.dict_get (ServerV2.process_row Sample.mixed_row) "price"
     = Some (PyVal.PFloat (S754_finite false 6755399441055744 (-52)))
  /\ PyVal.dict_keys (ServerV2.process_row Sample.mixed_row)
     = ["id"; "payload"; "born"; "token"; "seen"; "price"]
  /\ fst (ServerV2.execute_query "SELECT * FROM events" Sample.mixed)
     = Eff.Ok (PyVal.PDict
         [ ("success", PyVal.PBool true);
           ("results",
            PyVal.PList [PyVal.PDict (ServerV2.process_row Sample.mixed_row)]) ]).
Proof.
  destruct (row_serialisation_frame Sample.mixed_row)
    as (Hid & Hdt & Hdec & _ & _ & _ & Hkeys & Hexec).
  split; [|split; [|split; [|split]]].
  - apply Hid; reflexivity.
  - exact (Hdt "seen" (PyVal.mk_datetime 2024 1 5 9 3 7 0 (Some 0%Z)) eq_refl).
  - exact (Hdec "price" (PyVal.DecFinite false 15 (-1)) eq_refl).
  - apply Hkeys. vm_compute.
    repeat constructor; simpl; intuition discriminate.
  - apply (Hexec "SELECT * FROM events" Sample.mixed [Sample.mixed_row]).
    + reflexivity.
    + discriminate.
    + reflexivity.
Defined.

(* ================================================================== *)
(** * Further properties *)
(* ================================================================== *)

(** ** The gate on texts without token and on glued keywords *)

Module GateFacts.
Import PyVal Eff Driver PyStr PyStrFacts.

Lemma allspace_lower (s : string) :
  ServerV2Tools.allspace (lower s) = ServerV2Tools.allspace s.
Proof.
  induction s as [|c s IH]; simpl; [reflexivity|].
  now rewrite isspace_lower_char, IH.
Qed.

Lemma split_from_nil (s cur : string) :
  split_from cur s = [] <-> cur = EmptyString /\ ServerV2Tools.allspace s = true.
Proof.
  revert cur; induction s as [|c s IH]; intros cur; simpl.
  - destruct cur; simpl; split; intros H; try tauto; try discriminate.
    destruct H; discriminate.
  - destruct (isspace c); simpl.
    + split.
      * intros H; apply app_eq_nil in H as [Hf Hs].
        apply IH in Hs as [_ Hs]. destruct cur; [auto | discriminate].
      * intros [-> Hs]; simpl. apply IH; auto.
    + rewrite IH. split; [|intros [_ H]; discriminate].
      intros [H _]. destruct cur; discriminate.
Qed.

Lemma split_nil (s : string) :
  split s = [] <-> ServerV2Tools.allspace s = true.
Proof. unfold split; rewrite split_from_nil; tauto. Qed.

(** The tokens of a text that starts with a token followed by a space. *)
Lemma split_first_token (t rest : string) :
  t <> EmptyString -> nospace t = true ->
  split (t ++ String " "%char rest) = t :: split rest.
Proof.
  intros Hne Ht; unfold split.
  rewrite (split_from_nospace _ _ _ Ht); simpl.
  now rewrite (flush_nonempty _ Hne).
Qed.

Lemma denied_extended (k q : string) :
  In k ServerV2._DENIED_KEYWORDS -> q <> EmptyString ->
  ~ In (k ++ q) ServerV2._DENIED_KEYWORDS.
Proof.
  intros Hk Hq Hin; simpl in Hk, Hin.
  repeat match goal with
         | H : _ \/ _ |- _ => destruct H
         | H : False |- _ => destruct H
         end; subst; simpl in *;
  try discriminate;
  repeat match goal with
         | H : String _ _ = String _ _ |- _ => injection H as ? H
         end;
  subst; try discriminate; congruence.
Qed.

Lemma mem_denied_false (tokens : list string) :
  (forall t, In t tokens -> ~ In t ServerV2._DENIED_KEYWORDS) ->
  existsb (fun k => mem k tokens) ServerV2._DENIED_KEYWORDS = false.
Proof.
  intros H. destruct (existsb _ _) eqn:E; [|reflexivity].
  apply existsb_exists in E as (k & Hk & Hm). apply mem_In in Hm.
  now elim (H k Hm).
Qed.

End GateFacts.

(** X1.  The gate returns the empty token list, not a boolean, exactly
    on the texts without token (empty or all whitespace); on such a
    text [execute_query] and [export_to_csv] answer with their error
    envelope and leave the process and the disk untouched. *)
Theorem blank_text_rejected (sql : string) :
  (ServerV2._is_safe_query sql = PyVal.PList []
   <-> ServerV2Tools.allspace sql = true)
  /\ (ServerV2Tools.allspace sql = true ->
      (forall w, ServerV2.execute_query sql w
                 = (Eff.Ok ServerV2.unsafe_envelope, w))
      /\ (forall filename h,
            ServerV2Tools.export_to_csv sql filename h
            = (Host.Returned ServerV2Tools.export_envelope, h))).
Proof.
  assert (E : ServerV2._is_safe_query sql = PyVal.PList []
              <-> ServerV2Tools.allspace sql = true).
  { rewrite <- GateFacts.allspace_lower, <- GateFacts.split_nil.
    unfold ServerV2._is_safe_query.
    destruct (PyStr.split (PyStr.lower sql)); split; congruence. }
  split; [exact E|].
  intros H; apply E in H. split.
  - intros w; unfold ServerV2.execute_query; now rewrite H.
  - intros filename h; unfold ServerV2Tools.export_to_csv; now rewrite H.
Qed.

Lemma blank_text_rejected_witness :
  ServerV2.execute_query "   " Sample.fresh
  = (Eff.Ok ServerV2.unsafe_envelope, Sample.fresh).
Proof.
  apply (proj2 (blank_text_rejected "   ")). reflexivity.
Defined.

(** X2.  A denied keyword with a non-blank character right behind it is
    not seen: when the text begins with a word that is a denied keyword
    in some letter case, continued without whitespace by [p], and what
    follows the next space has no denied token, the gate answers
    [True]. *)
Theorem glued_keyword_passes (w p rest : string) :
  In (PyStr.lower w) ServerV2._DENIED_KEYWORDS ->
  p <> EmptyString ->
  PyStr.nospace p = true ->
  ~ ServerV2.has_denied_token rest ->
  ServerV2._is_safe_query (w ++ p ++ String " "%char rest) = PyVal.PBool true.
Proof.
  intros Hw Hp Hns Hrest.
  assert (Hwn : PyStr.nospace (PyStr.lower w) = true).
  { simpl in Hw; repeat destruct Hw as [<- | Hw]; try reflexivity; destruct Hw. }
  unfold ServerV2._is_safe_query.
  rewrite <- PyStrFacts.app_assoc_s, PyStrFacts.lower_app; simpl PyStr.lower.
  replace (PyStr.lower_char " "%char) with " "%char by reflexivity.
  rewrite GateFacts.split_first_token.
  - rewrite GateFacts.mem_denied_false; [reflexivity|].
    intros t [<- | Ht].
    + rewrite PyStrFacts.lower_app. apply GateFacts.denied_extended; [exact Hw|].
      intros H; now apply PyStrFacts.lower_empty_inv in H.
    + intros Hd. apply Hrest, denied_reflect.
      apply existsb_exists; exists t; split; [exact Hd|].
      now apply PyStrFacts.mem_In.
  - rewrite PyStrFacts.lower_app. destruct (PyStr.lower w); [|discriminate].
    simpl in Hw; repeat destruct Hw as [Hw | Hw]; try discriminate; destruct Hw.
  - rewrite PyStrFacts.lower_app, PyStrFacts.nospace_app, Hwn.
    now rewrite PyStrFacts.nospace_lower.
Qed.

Lemma glued_keyword_passes_witness :
  ServerV2._is_safe_query "DELETE/**/FROM users" = PyVal.PBool true.
Proof.
  apply (glued_keyword_passes "DELETE" "/**/FROM" "users").
  - simpl; tauto.
  - discriminate.
  - reflexivity.
  - intros H; apply denied_reflect in H; vm_compute in H; discriminate.
Defined.

(** ** The life of the pool *)

Module PoolLife.
Import PyVal Eff Driver Host.

Lemma init_db_none (w : World) (lo hi : Z) :
  _db_pool w = None ->
  ServerV2.init_db lo hi w
  = if reachable w then
      let p := mk_pool (List.length (created w)) lo hi in
      let w1 := mk_world (Some p) (reachable w) (backend w)
                         (created w ++ [p]) (closed w) (sent w) in
      match backend w (mk_stmt "SELECT version();" []) with
      | Ok _ => (Ok p, log_sent (mk_stmt "SELECT version();" []) w1)
      | Raise e => (Raise e, log_sent (mk_stmt "SELECT version();" []) w1)
      end
    else (Raise ConnectionError, w).
Proof.
  intros H; unfold ServerV2.init_db; rewrite H.
  unfold bind, create_pool, set_db_pool, fetchval, bind, fetch, ret.
  destruct (reachable w); [|reflexivity]. simpl.
  destruct (backend w _); reflexivity.
Qed.

(** [init_db] keeps the account of the pools. *)
Lemma init_db_accounted (w : World) (lo hi : Z) :
  ServerV2Tools.pools_accounted w ->
  ServerV2Tools.pools_accounted (snd (ServerV2.init_db lo hi w)).
Proof.
  intros [Hc Hid]. destruct (_db_pool w) as [p|] eqn:E.
  - rewrite (init_db_initialised _ _ _ _ E); now split.
  - rewrite (init_db_none _ _ _ E).
    destruct (reachable w); [|now split].
    assert (Hcur : ServerV2Tools.current w = []).
    { unfold ServerV2Tools.current; now rewrite E. }
    rewrite Hcur, app_nil_r in Hc.
    destruct (backend w _); simpl; split; simpl;
      unfold ServerV2Tools.current; simpl;
      try (now rewrite Hc);
      rewrite map_app, length_app, seq_app, Hid; simpl; reflexivity.
Qed.


Lemma log_sent_accounted (s : stmt) (w : World) :
  ServerV2Tools.pools_accounted w -> ServerV2Tools.pools_accounted (log_sent s w).
Proof. intros H; exact H. Qed.

Import ServerV2Tools.

Lemma keeps_bind (P : World -> Prop) {A B} (m : M World A) (k : A -> M World B) :
  keeps P m -> (forall a, keeps P (k a)) -> keeps P (bind m k).
Proof.
  intros Hm Hk w Hw; unfold bind. specialize (Hm w Hw).
  destruct (m w) as [[a|e] w1]; simpl in *; [now apply Hk | exact Hm].
Qed.

Lemma keeps_ret (P : World -> Prop) {A} (a : A) : keeps P (@ret World A a).
Proof. intros w Hw; exact Hw. Qed.

Lemma keeps_lift (P : World -> Prop) {A} (r : result A) : keeps P (@lift World A r).
Proof. intros w Hw; exact Hw. Qed.

Lemma keeps_fetch (P : World -> Prop) (sql : string) (args : list pyval) :
  (forall s w, P w -> P (log_sent s w)) -> keeps P (fetch sql args).
Proof. intros H w Hw; unfold fetch; simpl; now apply H. Qed.

Lemma keeps_fetchval (P : World -> Prop) (sql : string) (args : list pyval) :
  (forall s w, P w -> P (log_sent s w)) -> keeps P (fetchval sql args).
Proof.
  intros H; unfold fetchval. apply keeps_bind; [now apply keeps_fetch|].
  intros a; apply keeps_ret.
Qed.

(** A property that [init_db] and the sending of a statement keep is
    kept by every tool and resource. *)
Section Kept.
Variable P : World -> Prop.
Hypothesis P_init : forall lo hi, keeps P (ServerV2.init_db lo hi).
Hypothesis P_sent : forall s w, P w -> P (log_sent s w).

Lemma keeps_execute_query (sql : string) : keeps P (ServerV2.execute_query sql).
Proof.
  unfold ServerV2.execute_query. destruct (negb _); [apply keeps_ret|].
  apply keeps_bind; [apply P_init|]. intros _.
  apply keeps_bind; [now apply keeps_fetch|]. intros rows; apply keeps_ret.
Qed.

Lemma keeps_get_table_schema (t : string) : keeps P (ServerV2.get_table_schema t).
Proof.
  unfold ServerV2.get_table_schema.
  apply keeps_bind; [apply P_init|]. intros _.
  apply keeps_bind; [now apply keeps_fetch|]. intros rows.
  apply keeps_bind; [apply keeps_lift|]. intros cols; apply keeps_ret.
Qed.

Lemma keeps_get_table_data (t : string) (limit offset : Z) :
  keeps P (ServerV2.get_table_data t limit offset).
Proof.
  unfold ServerV2.get_table_data.
  apply keeps_bind; [apply P_init|]. intros _.
  apply keeps_bind; [apply keeps_lift|]. intros quoted.
  apply keeps_bind; [now apply keeps_fetch|]. intros rows; apply keeps_ret.
Qed.

Lemma keeps_get_table_stats (t : string) : keeps P (ServerV2.get_table_stats t).
Proof.
  unfold ServerV2.get_table_stats.
  apply keeps_bind; [apply P_init|]. intros _.
  apply keeps_bind; [apply keeps_lift|]. intros quoted.
  apply keeps_bind; [now apply keeps_fetchval|]. intros total.
  apply keeps_bind; [apply keeps_get_table_schema|]. intros info.
  apply keeps_bind; [apply keeps_lift|]. intros n; apply keeps_ret.
Qed.

Lemma keeps_list_tables : keeps P list_tables.
Proof.
  unfold list_tables.
  apply keeps_bind; [apply P_init|]. intros _.
  apply keeps_bind; [now apply keeps_fetch|]. intros rows.
  apply keeps_bind; [apply keeps_lift|]. intros ts; apply keeps_ret.
Qed.

Lemma of_world_world {A} (m : M World A) (h : Host) :
  world (snd (of_world m h)) = snd (m (world h)).
Proof. unfold of_world; destruct (m (world h)) as [[a|e] w1]; reflexivity. Qed.

Lemma keeps_export_to_csv (sql filename : string) (h : Host) :
  P (world h) -> P (world (snd (export_to_csv sql filename h))).
Proof.
  intros Hh; unfold export_to_csv. destruct (negb _); [exact Hh|].
  unfold hbind.
  assert (Hk : keeps P (_ <- ServerV2.init_db 2 10 ;; fetch sql [])%eff).
  { apply keeps_bind; [apply P_init|]. intros _. now apply keeps_fetch. }
  specialize (Hk _ Hh). rewrite <- of_world_world in Hk.
  destruct (of_world _ h) as [[rows|f] h1]; simpl in *; [|exact Hk].
  unfold to_csv. destruct (writable h1 filename); simpl; exact Hk.
Qed.

Lemma keeps_handle (r : request) (h : Host) :
  P (world h) -> P (world (snd (handle r h))).
Proof.
  intros Hh; destruct r; simpl; try rewrite of_world_world.
  - now apply keeps_execute_query.
  - now apply keeps_export_to_csv.
  - now apply keeps_list_tables.
  - now apply keeps_get_table_schema.
  - now apply keeps_get_table_data.
  - now apply keeps_get_table_stats.
Qed.

Lemma keeps_run_async (requests : list request) (stop : option failure) (h : Host) :
  P (world h) -> P (world (snd (run_async requests stop h))).
Proof.
  revert h; induction requests as [|r rest IH]; intros h Hh; simpl.
  - destruct stop; exact Hh.
  - pose proof (keeps_handle r h Hh) as H1.
    destruct (handle r h) as [answer h1]; simpl in H1.
    specialize (IH h1 H1).
    destruct (run_async rest stop h1) as [[answers|f] h2]; exact IH.
Qed.

End Kept.

End PoolLife.

(** X3.  With no pool and a server that cannot be reached, [init_db]
    raises the connection error and changes nothing, so the next call
    tries again; every tool and resource fails the same way without
    sending a statement or writing a file, and [main] ends with that
    error before any request is handled. *)
Theorem unreachable_server_fails_fast (w : Driver.World) :
  Driver._db_pool w = None ->
  Driver.reachable w = false ->
  (forall lo hi, ServerV2.init_db lo hi w = (Eff.Raise Eff.ConnectionError, w))
  /\ (forall sql, PyVal.truthy (ServerV2._is_safe_query sql) = true ->
        ServerV2.execute_query sql w = (Eff.Raise Eff.ConnectionError, w))
  /\ (forall t, ServerV2.get_table_schema t w = (Eff.Raise Eff.ConnectionError, w))
  /\ (forall t limit offset,
        ServerV2.get_table_data t limit offset w
        = (Eff.Raise Eff.ConnectionError, w))
  /\ (forall t, ServerV2.get_table_stats t w = (Eff.Raise Eff.ConnectionError, w))
  /\ ServerV2Tools.list_tables w = (Eff.Raise Eff.ConnectionError, w)
  /\ (forall requests stop can files,
        ServerV2Tools.main requests stop (Host.mk_host w can files)
        = (Host.Failed (Host.Exception Eff.ConnectionError),
           Host.mk_host w can files))
  /\ (forall sql filename can files,
        PyVal.truthy (ServerV2._is_safe_query sql) = true ->
        ServerV2Tools.export_to_csv sql filename (Host.mk_host w can files)
        = (Host.Failed (Host.Exception Eff.ConnectionError),
           Host.mk_host w can files)).
Proof.
  intros Hp Hr.
  assert (Hi : forall lo hi,
             ServerV2.init_db lo hi w = (Eff.Raise Eff.ConnectionError, w)).
  { intros lo hi; now rewrite (PoolLife.init_db_none _ _ _ Hp), Hr. }
  split; [exact Hi|].
  repeat split; intros.
  - unfold ServerV2.execute_query; rewrite H; simpl.
    unfold Eff.bind; now rewrite Hi.
  - unfold ServerV2.get_table_schema, Eff.bind; now rewrite Hi.
  - unfold ServerV2.get_table_data, Eff.bind; now rewrite Hi.
  - unfold ServerV2.get_table_stats, Eff.bind; now rewrite Hi.
  - unfold ServerV2Tools.list_tables, Eff.bind; now rewrite Hi.
  - unfold ServerV2Tools.main, Host.hbind, Host.of_world; simpl.
    rewrite Hi; simpl. unfold ServerV2.close_db; now rewrite Hp.
  - unfold ServerV2Tools.export_to_csv; rewrite H; simpl.
    unfold Host.hbind, Host.of_world, Eff.bind; simpl. now rewrite Hi.
Qed.

Lemma unreachable_server_fails_fast_witness :
  ServerV2.get_table_stats "users" Sample.cut_off
  = (Eff.Raise Eff.ConnectionError, Sample.cut_off)
  /\ ServerV2Tools.export_to_csv "SELECT * FROM users" "out.csv"
       (Host.mk_host Sample.cut_off (fun _ => true) [])
     = (Host.Failed (Host.Exception Eff.ConnectionError),
        Host.mk_host Sample.cut_off (fun _ => true) []).
Proof.
  destruct (unreachable_server_fails_fast Sample.cut_off eq_refl eq_refl)
    as (_ & _ & _ & _ & Hstats & _ & _ & Hexport).
  split; [apply Hstats | apply Hexport; reflexivity].
Defined.

(** X4.  When the server takes connections but the version probe fails,
    [init_db] raises the probe's error with the new pool already in the
    global: every later call returns that pool at once, probing no
    more. *)
Theorem failed_probe_keeps_pool (w : Driver.World) (lo hi : Z) (e : Eff.exn) :
  Driver._db_pool w = None ->
  Driver.reachable w = true ->
  Driver.backend w (Driver.mk_stmt "SELECT version();" []) = Eff.Raise e ->
  let p := Driver.mk_pool (List.length (Driver.created w)) lo hi in
  let w' := snd (ServerV2.init_db lo hi w) in
  fst (ServerV2.init_db lo hi w) = Eff.Raise e
  /\ Driver._db_pool w' = Some p
  /\ Driver.created w' = (Driver.created w ++ [p])%list
  /\ forall lo' hi', ServerV2.init_db lo' hi' w' = (Eff.Ok p, w').
Proof.
  intros Hp Hr Hb p w'. subst w'.
  rewrite (PoolLife.init_db_none _ _ _ Hp), Hr; simpl. rewrite Hb; simpl.
  repeat split.
Qed.

Lemma failed_probe_keeps_pool_witness :
  fst (ServerV2.init_db 2 10
         (Driver.mk_world None true (fun _ => Eff.Raise Eff.PostgresSyntaxError)
                          [] [] []))
  = Eff.Raise Eff.PostgresSyntaxError
  /\ fst (ServerV2.init_db 2 10
            (snd (ServerV2.init_db 2 10
                    (Driver.mk_world None true
                       (fun _ => Eff.Raise Eff.PostgresSyntaxError) [] [] []))))
     = Eff.Ok (Driver.mk_pool 0 2 10).
Proof.
  destruct (failed_probe_keeps_pool
              (Driver.mk_world None true (fun _ => Eff.Raise Eff.PostgresSyntaxError)
                               [] [] [])
              2 10 Eff.PostgresSyntaxError eq_refl eq_refl eq_refl)
    as (H1 & _ & _ & H2).
  split; [exact H1|]. now rewrite H2.
Defined.


(** X6.  On a process whose pools are accounted for (each one created
    is closed or is the one in the global, numbered by creation), the
    pool [init_db] returns is never a closed one, and the account still
    holds afterwards. *)
Theorem init_db_pool_is_open (w : Driver.World) (lo hi : Z) (p : Driver.Pool) :
  ServerV2Tools.pools_accounted w ->
  fst (ServerV2.init_db lo hi w) = Eff.Ok p ->
  ~ In p (Driver.closed (snd (ServerV2.init_db lo hi w)))
  /\ ServerV2Tools.pools_accounted (snd (ServerV2.init_db lo hi w)).
Proof.
  intros Ha Hp.
  pose proof (PoolLife.init_db_accounted w lo hi Ha) as Ha'.
  split; [|exact Ha'].
  assert (Hg : Driver._db_pool (snd (ServerV2.init_db lo hi w)) = Some p).
  { apply (init_db_sets_global w _ p lo hi).
    destruct (ServerV2.init_db lo hi w) as [r w1]; simpl in *; now subst. }
  destruct Ha' as [Hc Hid].
  set (w1 := snd (ServerV2.init_db lo hi w)) in *.
  unfold ServerV2Tools.current in Hc; rewrite Hg in Hc.
  assert (Hnd : NoDup (map Driver.pool_id (Driver.created w1))).
  { rewrite Hid; apply seq_NoDup. }
  apply NoDup_map_inv in Hnd. rewrite Hc in Hnd.
  apply NoDup_remove_2 in Hnd. now rewrite app_nil_r in Hnd.
Qed.

Lemma init_db_pool_is_open_witness :
  fst (ServerV2.init_db 2 10 Sample.reopening) = Eff.Ok (Driver.mk_pool 1 2 10)
  /\ Driver.closed (snd (ServerV2.init_db 2 10 Sample.reopening))
     = [Sample.the_pool]
  /\ ~ In (Driver.mk_pool 1 2 10)
          (Driver.closed (snd (ServerV2.init_db 2 10 Sample.reopening))).
Proof.
  split; [reflexivity|]. split; [reflexivity|].
  apply (init_db_pool_is_open Sample.reopening 2 10 (Driver.mk_pool 1 2 10)).
  - split; reflexivity.
  - reflexivity.
Defined.



(** X8.  With a pool in the global, no request creates, closes or
    replaces a pool: after any run of requests the global, the pools
    created and the pools closed are what they were. *)
Theorem requests_keep_pool (requests : list ServerV2Tools.request)
    (stop : option Host.failure) (h : Host.Host) (p : Driver.Pool) :
  Driver._db_pool (Host.world h) = Some p ->
  let h' := snd (ServerV2Tools.run_async requests stop h) in
  Driver._db_pool (Host.world h') = Some p
  /\ Driver.created (Host.world h') = Driver.created (Host.world h)
  /\ Driver.closed (Host.world h') = Driver.closed (Host.world h).
Proof.
  intros Hp h'. subst h'.
  apply (PoolLife.keeps_run_async
           (fun w => Driver._db_pool w = Some p
                     /\ Driver.created w = Driver.created (Host.world h)
                     /\ Driver.closed w = Driver.closed (Host.world h))).
  - intros lo hi w0 (H1 & H2 & H3).
    rewrite (init_db_initialised _ _ _ _ H1); auto.
  - intros s w0 H; exact H.
  - auto.
Qed.

Lemma requests_keep_pool_witness :
  Driver.created
    (Host.world
       (snd (ServerV2Tools.run_async
               [ServerV2Tools.ListTables; ServerV2Tools.TableData "users" 2 0]
               None (Host.mk_host Sample.serving (fun _ => true) []))))
  = [Sample.the_pool].
Proof.
  apply (requests_keep_pool
           [ServerV2Tools.ListTables; ServerV2Tools.TableData "users" 2 0]
           None (Host.mk_host Sample.serving (fun _ => true) []) Sample.the_pool).
  reflexivity.
Defined.

(** ** Failures of the database and the CSV export *)

(** X9.  An error of the database is not put into an envelope: on a
    process with its pool, when the database answers the statement of
    [execute_query], of the schema resource or of [list_tables] with an
    exception, that exception leaves the handler, after the statement
    has been sent; [execute_query] sends the text as it is and without
    bind value. *)
Theorem database_error_not_enveloped (w : Driver.World) (e : Eff.exn) :
  Driver._db_pool w <> None ->
  (forall sql,
     PyVal.truthy (ServerV2._is_safe_query sql) = true ->
     Driver.backend w (Driver.mk_stmt sql []) = Eff.Raise e ->
     ServerV2.execute_query sql w
     = (Eff.Raise e, Driver.log_sent (Driver.mk_stmt sql []) w))
  /\ (forall t,
       Driver.backend w (Driver.mk_stmt ServerV2.schema_sql [PyVal.PStr t])
       = Eff.Raise e ->
       ServerV2.get_table_schema t w
       = (Eff.Raise e,
          Driver.log_sent (Driver.mk_stmt ServerV2.schema_sql [PyVal.PStr t]) w))
  /\ (Driver.backend w (Driver.mk_stmt ServerV2Tools.tables_sql []) = Eff.Raise e ->
      ServerV2Tools.list_tables w
      = (Eff.Raise e,
         Driver.log_sent (Driver.mk_stmt ServerV2Tools.tables_sql []) w)).
Proof.
  intros Hp. repeat split; intros.
  - unfold ServerV2.execute_query; rewrite H; simpl.
    pool_ready w. unfold Eff.bind, Driver.fetch; now rewrite H0.
  - unfold ServerV2.get_table_schema. pool_ready w.
    unfold Eff.bind, Driver.fetch; now rewrite H.
  - unfold ServerV2Tools.list_tables. pool_ready w.
    unfold Eff.bind, Driver.fetch; now rewrite H.
Qed.

Lemma database_error_not_enveloped_witness :
  ServerV2.execute_query "SELECT * FROM nowhere" Sample.refusing
  = (Eff.Raise (Eff.UndefinedTableError "nowhere"),
     Driver.log_sent (Driver.mk_stmt "SELECT * FROM nowhere" []) Sample.refusing).
Proof.
  assert (Hp : Driver._db_pool Sample.refusing <> None) by discriminate.
  apply (proj1 (database_error_not_enveloped Sample.refusing
                  (Eff.UndefinedTableError "nowhere") Hp)); reflexivity.
Defined.

(** X10.  [export_to_csv] on a process with its pool, for a text that
    passes the gate: the text is sent; if the database raises, the
    exception leaves the tool and nothing is written; if it answers
    with rows, one frame is written under the file name, holding the
    rows as mappings with their values unconverted, and the envelope
    counts these rows; if the disk refuses the file, the tool fails
    after the statement was sent and nothing is written. *)
Theorem export_to_csv_outcomes (sql filename : string) (h : Host.Host) :
  PyVal.truthy (ServerV2._is_safe_query sql) = true ->
  Driver._db_pool (Host.world h) <> None ->
  let h1 := Host.mk_host (Driver.log_sent (Driver.mk_stmt sql []) (Host.world h))
                         (Host.writable h) (Host.written h) in
  match Driver.backend (Host.world h) (Driver.mk_stmt sql []) with
  | Eff.Raise e =>
      ServerV2Tools.export_to_csv sql filename h
      = (Host.Failed (Host.Exception e), h1)
  | Eff.Ok rows =>
      if Host.writable h filename then
        ServerV2Tools.export_to_csv sql filename h
        = (Host.Returned
             (PyVal.PDict [ ("success", PyVal.PBool true);
                            ("filename", PyVal.PStr filename);
                            ("rows_exported",
                             PyVal.PInt (Z.of_nat (List.length rows))) ]),
           Host.mk_host (Host.world h1) (Host.writable h)
             (Host.written h
              ++ [(filename, map ServerV2.dict_of_record rows)])%list)
      else
        ServerV2Tools.export_to_csv sql filename h
        = (Host.Failed (Host.OSError filename), h1)
  end.
Proof.
  intros Hs Hp h1. unfold ServerV2Tools.export_to_csv; rewrite Hs; simpl.
  destruct (Driver._db_pool (Host.world h)) as [p|] eqn:E; [|congruence].
  assert (Hrun : (_ <- ServerV2.init_db 2 10 ;; Driver.fetch sql [])%eff
                   (Host.world h)
                 = (Driver.backend (Host.world h) (Driver.mk_stmt sql []),
                    Driver.log_sent (Driver.mk_stmt sql []) (Host.world h))).
  { unfold Eff.bind. now rewrite (init_db_initialised _ _ _ _ E). }
  unfold Host.hbind, Host.of_world. rewrite Hrun.
  destruct (Driver.backend (Host.world h) _) as [rows|e]; [|reflexivity].
  unfold Host.to_csv; simpl.
  destruct (Host.writable h filename); [|reflexivity].
  unfold ServerV2Tools.data_frame; now rewrite length_map.
Qed.

Lemma export_to_csv_outcomes_witness :
  Host.written
    (snd (ServerV2Tools.export_to_csv "SELECT * FROM events" "out.csv"
            (Host.mk_host Sample.mixed (fun _ => true) [])))
  = [("out.csv", [Sample.mixed_row])].
Proof.
  pose proof (export_to_csv_outcomes "SELECT * FROM events" "out.csv"
                (Host.mk_host Sample.mixed (fun _ => true) [])
                eq_refl) as H.
  simpl in H. rewrite H; [reflexivity | discriminate].
Defined.

(** ** The data and stats resources *)

(** X11.  The data and stats resources of the PostgreSQL server stop at
    the lookup of [asyncpg.quote_ident]: whatever the table name, the
    limit and the offset, they end as [init_db] ends when that fails,
    and with the attribute error otherwise, in the state [init_db]
    leaves; with the pool in the global they send no statement and
    change nothing. *)
Theorem quote_ident_stops_resources (w : Driver.World) (name : string)
    (limit offset : Z) :
  ServerV2.get_table_data name limit offset w
  = match ServerV2.init_db 2 10 w with
    | (Eff.Ok _, w1) => (Eff.Raise (Eff.AttributeError "quote_ident"), w1)
    | (Eff.Raise e, w1) => (Eff.Raise e, w1)
    end
  /\ ServerV2.get_table_stats name w
     = match ServerV2.init_db 2 10 w with
       | (Eff.Ok _, w1) => (Eff.Raise (Eff.AttributeError "quote_ident"), w1)
       | (Eff.Raise e, w1) => (Eff.Raise e, w1)
       end
  /\ (Driver._db_pool w <> None ->
      ServerV2.get_table_data name limit offset w
      = (Eff.Raise (Eff.AttributeError "quote_ident"), w)
      /\ ServerV2.get_table_stats name w
         = (Eff.Raise (Eff.AttributeError "quote_ident"), w)).
Proof.
  split; [apply PostgresFacts.get_table_data_stops|].
  split; [apply PostgresFacts.get_table_stats_stops|].
  intros Hp.
  rewrite PostgresFacts.get_table_data_stops, PostgresFacts.get_table_stats_stops.
  destruct (Driver._db_pool w) as [p|] eqn:E; [|congruence].
  rewrite (init_db_initialised _ _ _ _ E). split; reflexivity.
Qed.

Lemma quote_ident_stops_resources_witness :
  ServerV2.get_table_data "users" 10 0 Sample.serving
  = (Eff.Raise (Eff.AttributeError "quote_ident"), Sample.serving)
  /\ ServerV2.get_table_stats "users" Sample.serving
     = (Eff.Raise (Eff.AttributeError "quote_ident"), Sample.serving).
Proof.
  apply (quote_ident_stops_resources Sample.serving "users" 10 0).
  discriminate.
Defined.

(** ** More on the rows *)

Module RowMore.
Import PyVal Eff Driver.

Lemma serialized_plain (v : pyval) :
  is_datetime (ServerV2.serialized v) = false
  /\ is_decimal (ServerV2.serialized v) = false.
Proof. destruct v; split; reflexivity. Qed.

Lemma serialized_idem (v : pyval) :
  ServerV2.serialized (ServerV2.serialized v) = ServerV2.serialized v.
Proof. now destruct v. Qed.

Lemma dict_get_absent (d : pydict) (k : string) :
  ~ In k (dict_keys d) -> dict_get d k = None.
Proof.
  induction d as [|[k0 v0] d IH]; simpl; [reflexivity|]. intros H.
  destruct (String.eqb k0 k) eqn:E.
  - apply String.eqb_eq in E; tauto.
  - apply IH; tauto.
Qed.

(** Two dictionaries with the same keys in the same order and the same
    value under each key are the same. *)
Lemma dict_ext (d1 d2 : pydict) :
  dict_keys d1 = dict_keys d2 -> NoDup (dict_keys d1) ->
  (forall k, dict_get d1 k = dict_get d2 k) -> d1 = d2.
Proof.
  revert d2; induction d1 as [|[k v] d1 IH]; intros [|[k' v'] d2] Hk Hnd Hg;
    try discriminate; [reflexivity|].
  simpl in Hk; injection Hk as <- Hk.
  apply NoDup_cons_iff in Hnd as [Hnk Hnd].
  pose proof (Hg k) as Hv; simpl in Hv; rewrite String.eqb_refl in Hv.
  injection Hv as <-. f_equal. apply IH; auto.
  intros k0. destruct (String.eqb k k0) eqn:E.
  - apply String.eqb_eq in E; subst k0.
    rewrite !dict_get_absent; auto. now rewrite <- Hk.
  - specialize (Hg k0); simpl in Hg; now rewrite E in Hg.
Qed.

Lemma record_get_distinct (row : PgRecord) (k : string) :
  NoDup (record_keys row) -> record_get row k = dict_get row k.
Proof.
  induction row as [|[k0 v0] row IH]; simpl; [reflexivity|]. intros Hnd.
  apply NoDup_cons_iff in Hnd as [Hnk Hnd]. rewrite (IH Hnd).
  destruct (String.eqb k0 k) eqn:E.
  - apply String.eqb_eq in E; subst k0.
    now rewrite (dict_get_absent row k Hnk).
  - now destruct (dict_get row k).
Qed.

(** The comprehension gives back a record with distinct names as it
    is. *)
Lemma dict_of_record_distinct (row : PgRecord) :
  NoDup (record_keys row) -> ServerV2.dict_of_record row = row.
Proof.
  intros Hnd. apply dict_ext.
  - rewrite RowFacts.dict_of_record_keys.
    now apply RowFacts.first_occurrences_distinct.
  - rewrite RowFacts.dict_of_record_keys. apply RowFacts.first_occurrences_NoDup.
  - intros k. rewrite RowFacts.dict_of_record_get. now apply record_get_distinct.
Qed.

Lemma process_row_distinct (row : PgRecord) :
  NoDup (record_keys row) ->
  ServerV2.process_row row
  = map (fun kv => (fst kv, ServerV2.serialized (snd kv))) row.
Proof.
  intros H. now rewrite RowFacts.process_row_map, dict_of_record_distinct.
Qed.

Lemma process_row_NoDup (row : PgRecord) :
  NoDup (record_keys (ServerV2.process_row row)).
Proof.
  change (record_keys (ServerV2.process_row row))
    with (dict_keys (ServerV2.process_row row)).
  rewrite RowFacts.process_row_keys. apply RowFacts.first_occurrences_NoDup.
Qed.

Lemma length_filter_le {A} (p : A -> bool) (l : list A) :
  (List.length (filter p l) <= List.length l)%nat.
Proof.
  induction l as [|x l IH]; simpl; [lia|]. destruct (p x); simpl; lia.
Qed.

Lemma length_filter_full {A} (p : A -> bool) (l : list A) :
  List.length (filter p l) = List.length l -> forall x, In x l -> p x = true.
Proof.
  induction l as [|x l IH]; simpl; [tauto|]. intros H y [<- | Hy].
  - destruct (p x); [reflexivity|].
    pose proof (length_filter_le p l); lia.
  - apply IH; [|exact Hy]. destruct (p x); simpl in H; [lia|].
    pose proof (length_filter_le p l); lia.
Qed.

Lemma first_occurrences_length (ks : list string) :
  (List.length (ServerV2.first_occurrences ks) <= List.length ks)%nat
  /\ (List.length (ServerV2.first_occurrences ks) = List.length ks -> NoDup ks).
Proof.
  induction ks as [|k ks [IHle IHnd]]; simpl.
  - split; [lia | constructor].
  - pose proof (length_filter_le (fun x => negb (String.eqb x k))
                  (ServerV2.first_occurrences ks)) as Hf.
    split; [lia|]. intros H.
    assert (H1 : List.length (ServerV2.first_occurrences ks) = List.length ks) by lia.
    assert (H2 : List.length (filter (fun x => negb (String.eqb x k))
                                (ServerV2.first_occurrences ks))
                 = List.length (ServerV2.first_occurrences ks)) by lia.
    constructor; [|now apply IHnd].
    intros Hin. apply RowFacts.first_occurrences_In in Hin.
    apply (length_filter_full _ _ H2) in Hin.
    now rewrite String.eqb_refl in Hin.
Qed.

End RowMore.

(** X12.  After the row loop no entry of the row is a datetime or a
    Decimal any more. *)
Theorem processed_row_has_no_datetime (row : Driver.PgRecord) :
  forallb (fun kv => negb (PyVal.is_datetime (snd kv))
                     && negb (PyVal.is_decimal (snd kv)))
          (ServerV2.process_row row) = true.
Proof.
  rewrite RowFacts.process_row_map. apply forallb_forall.
  intros kv Hin. apply in_map_iff in Hin as (kv0 & <- & _); simpl.
  now destruct (RowMore.serialized_plain (snd kv0)) as [-> ->].
Qed.

(** X13.  The row loop is idempotent: run on its own result, taken as a
    record, it gives that result again. *)
Theorem process_row_idempotent (row : Driver.PgRecord) :
  ServerV2.process_row (ServerV2.process_row row) = ServerV2.process_row row.
Proof.
  rewrite (RowMore.process_row_distinct (ServerV2.process_row row))
    by apply RowMore.process_row_NoDup.
  rewrite RowFacts.process_row_map, map_map; simpl.
  apply map_ext; intros kv. now rewrite RowMore.serialized_idem.
Qed.

(** X14.  The processed row never has more entries than the record has
    columns, and it has as many exactly when the column names are
    distinct; it is then the record itself with each value converted.
    With a repeated name, columns are dropped. *)
Theorem repeated_names_drop_columns (row : Driver.PgRecord) :
  (List.length (ServerV2.process_row row) <= List.length row)%nat
  /\ (List.length (ServerV2.process_row row) = List.length row
      <-> NoDup (Driver.record_keys row))
  /\ (NoDup (Driver.record_keys row) ->
      ServerV2.process_row row
      = map (fun kv => (fst kv, ServerV2.serialized (snd kv))) row).
Proof.
  assert (Hlen : List.length (ServerV2.process_row row)
                 = List.length (ServerV2.first_occurrences (Driver.record_keys row))).
  { rewrite <- RowFacts.process_row_keys. unfold PyVal.dict_keys.
    now rewrite length_map. }
  assert (Hk : List.length (Driver.record_keys row) = List.length row).
  { unfold Driver.record_keys; now rewrite length_map. }
  destruct (RowMore.first_occurrences_length (Driver.record_keys row)) as [Hle Hnd].
  split; [lia|]. split; [split|].
  - intros H; apply Hnd; lia.
  - intros H. rewrite Hlen, (RowFacts.first_occurrences_distinct _ H); lia.
  - apply RowMore.process_row_distinct.
Qed.

Lemma repeated_names_drop_columns_witness :
  ServerV2.process_row Sample.mixed_row
  = map (fun kv => (fst kv, ServerV2.serialized (snd kv))) Sample.mixed_row.
Proof.
  apply (repeated_names_drop_columns Sample.mixed_row).
  vm_compute. repeat constructor; simpl; intuition discriminate.
Defined.

(** ** The original server: schema and stats *)

Module OriginalFacts.
Import PyVal Eff.

Lemma column_entry_ok (col : pydict) :
  ServerV1Tools.has_fields col = true ->
  exists entry, ServerV1.column_entry col = Ok entry.
Proof.
  unfold ServerV1Tools.has_fields, ServerV1.column_entry, ServerV1.getitem.
  destruct (dict_get col "name"); [|discriminate].
  destruct (dict_get col "type"); [|discriminate].
  destruct (dict_get col "nullable"); [|discriminate].
  intros _; eexists; reflexivity.
Qed.

Lemma column_entry_missing (col : pydict) :
  ServerV1Tools.has_fields col = false ->
  exists k, ServerV1.column_entry col = Raise (KeyError k).
Proof.
  unfold ServerV1Tools.has_fields, ServerV1.column_entry, ServerV1.getitem.
  destruct (dict_get col "name"), (dict_get col "type"),
    (dict_get col "nullable"); try discriminate; intros _; eexists; reflexivity.
Qed.

Lemma traverse_ok (cols : list pydict) :
  forallb ServerV1Tools.has_fields cols = true ->
  exists entries,
    traverse ServerV1.column_entry cols = Ok entries
    /\ List.length entries = List.length cols.
Proof.
  induction cols as [|col cols IH]; simpl.
  - intros _; exists []; auto.
  - intros H; apply andb_true_iff in H as [Hc Hr].
    destruct (column_entry_ok _ Hc) as (entry & ->).
    destruct (IH Hr) as (entries & -> & Hl).
    exists (entry :: entries); simpl; auto.
Qed.

Lemma traverse_missing (cols : list pydict) :
  forallb ServerV1Tools.has_fields cols = false ->
  exists k, traverse ServerV1.column_entry cols = Raise (KeyError k).
Proof.
  induction cols as [|col cols IH]; simpl; [discriminate|].
  destruct (ServerV1Tools.has_fields col) eqn:Hc; simpl.
  - intros Hr. destruct (column_entry_ok _ Hc) as (entry & ->).
    destruct (IH Hr) as (k & ->). now exists k.
  - intros _. destruct (column_entry_missing _ Hc) as (k & ->). now exists k.
Qed.

End OriginalFacts.

(** X16.  In the original server, for a table whose columns the
    inspector reports: when each column mapping has its name, type and
    nullable field, [get_table_schema] returns one entry per column, and
    [get_table_stats] (once its count statement is answered) returns
    that number as [column_count]; when a field is missing,
    [get_table_schema] raises a key error, while [get_table_stats],
    which only counts the mappings, still succeeds. *)
Theorem original_schema_and_stats (e : ServerV1.Engine) (table_name : string)
    (cols rows : list PyVal.pydict) :
  ServerV1.columns_of e table_name = Eff.Ok cols ->
  ServerV1.run e (ServerV1.mk_statement ("SELECT COUNT(*) FROM " ++ table_name) [])
  = Eff.Ok rows ->
  fst (ServerV1.get_table_stats table_name e)
  = Eff.Ok (PyVal.PDict
      [ ("table_name", PyVal.PStr table_name);
        ("total_rows", ServerV1.scalar rows);
        ("column_count", PyVal.PInt (Z.of_nat (List.length cols))) ])
  /\ if forallb ServerV1Tools.has_fields cols
     then exists entries,
         fst (ServerV1.get_table_schema table_name e)
         = Eff.Ok (PyVal.PDict [ ("table_name", PyVal.PStr table_name);
                                 ("columns", PyVal.PList entries) ])
         /\ List.length entries = List.length cols
     else exists k,
         fst (ServerV1.get_table_schema table_name e)
         = Eff.Raise (Eff.KeyError k).
Proof.
  intros Hc Hr. split.
  - unfold ServerV1.get_table_stats, Eff.bind, ServerV1.execute,
      ServerV1.get_columns.
    cbv zeta; rewrite Hr. cbn [ServerV1.columns_of]. now rewrite Hc.
  - unfold ServerV1.get_table_schema, Eff.bind, ServerV1.get_columns, Eff.lift.
    rewrite Hc. destruct (forallb _ cols) eqn:E.
    + destruct (OriginalFacts.traverse_ok _ E) as (entries & -> & Hl).
      now exists entries.
    + destruct (OriginalFacts.traverse_missing _ E) as (k & ->). now exists k.
Qed.

Lemma original_schema_and_stats_witness :
  fst (ServerV1.get_table_stats "users" Sample.shop)
  = Eff.Ok (PyVal.PDict [ ("table_name", PyVal.PStr "users");
                          ("total_rows", PyVal.PInt 3);
                          ("column_count", PyVal.PInt 2) ])
  /\ exists entries,
       fst (ServerV1.get_table_schema "users" Sample.shop)
       = Eff.Ok (PyVal.PDict [ ("table_name", PyVal.PStr "users");
                               ("columns", PyVal.PList entries) ])
       /\ List.length entries = 2%nat.
Proof.
  exact (original_schema_and_stats Sample.shop "users" Sample.users_columns
           [[("COUNT(*)", PyVal.PInt 3)]] eq_refl eq_refl).
Defined.

(** ** The console loop of the client *)

Module ClientFacts.
Import GeminiClient.

(** Lines that are answered come out in front of what the rest of the
    script gives. *)
Lemma loop_answered (pre rest : list console) :
  answered pre = true ->
  loop (pre ++ rest)
  = mk_transcript (flat_map output_of pre ++ printed (loop rest))
                  (flat_map line_of pre ++ asked (loop rest))
                  (ends (loop rest)).
Proof.
  induction pre as [|c pre IH]; simpl.
  - intros _; now destruct (loop rest).
  - destruct c as [u [out|]]; try discriminate.
    intros H; apply andb_true_iff in H as [Hu Hp].
    apply negb_true_iff in Hu; rewrite Hu, (IH Hp); reflexivity.
Qed.

End ClientFacts.

(** X17.  On a script of typed lines, the client hands the agent the
    lines typed before the first exit command, in order, and prints its
    answers; at a line that is [exit] or [quit] in any letter case it
    stops with the shutdown message and asks nothing more; a line the
    agent fails on, or the end of the input, ends the run without that
    message. *)
Theorem client_asks_until_exit (pre : list GeminiClient.console) :
  GeminiClient.answered pre = true ->
  let ready := "Gemini client is ready. Enter your requests." in
  let outputs := flat_map GeminiClient.output_of pre in
  let lines := flat_map GeminiClient.line_of pre in
  (forall u r rest,
     GeminiClient.is_exit u = true ->
     GeminiClient.main (pre ++ GeminiClient.Line u r :: rest)
     = GeminiClient.mk_transcript
         (ready :: outputs ++ [GeminiClient.shutting_down]) lines
         GeminiClient.ShutDown)
  /\ (forall u rest,
        GeminiClient.is_exit u = false ->
        GeminiClient.main (pre ++ GeminiClient.Line u GeminiClient.Raised :: rest)
        = GeminiClient.mk_transcript (ready :: outputs) (lines ++ [u])
            GeminiClient.Crashed)
  /\ GeminiClient.main pre
     = GeminiClient.mk_transcript (ready :: outputs) lines GeminiClient.Crashed
  /\ (forall u, GeminiClient.is_exit u = true
                <-> PyStr.lower u = "exit" \/ PyStr.lower u = "quit").
Proof.
  intros Hp ready outputs lines. unfold GeminiClient.main.
  subst ready outputs lines.
  assert (Hend : GeminiClient.loop pre = GeminiClient.loop (pre ++ []))
    by now rewrite app_nil_r.
  split; [|split; [|split]]; intros; rewrite ?Hend;
    try (rewrite (ClientFacts.loop_answered _ _ Hp); simpl;
         rewrite ?H; simpl; rewrite ?app_nil_r; reflexivity).
  unfold GeminiClient.is_exit; simpl.
  rewrite !orb_true_iff, !String.eqb_eq. intuition (congruence || discriminate).
Qed.

Lemma client_asks_until_exit_witness :
  GeminiClient.main
    [ GeminiClient.Line "how many users?" (GeminiClient.Answer "5");
      GeminiClient.Line " exit" (GeminiClient.Answer "?");
      GeminiClient.Line "QuIt" GeminiClient.Raised;
      GeminiClient.Line "more" (GeminiClient.Answer "never") ]
  = GeminiClient.mk_transcript
      [ "Gemini client is ready. Enter your requests."; "5"; "?";
        GeminiClient.shutting_down ]
      ["how many users?"; " exit"]
      GeminiClient.ShutDown.
Proof.
  pose proof (client_asks_until_exit
                [ GeminiClient.Line "how many users?" (GeminiClient.Answer "5");
                  GeminiClient.Line " exit" (GeminiClient.Answer "?") ]
                eq_refl) as (H & _).
  exact (H "QuIt" GeminiClient.Raised
           [GeminiClient.Line "more" (GeminiClient.Answer "never")] eq_refl).
Defined.

(** ** One run of the server *)

Module RunFacts.
Import PyVal Eff Driver Host ServerV2Tools.

(** A run that ends by returning gives the answers of the handlers, in
    the order of the requests, each on the state the earlier requests
    left. *)
Lemma run_async_replies (requests : list request) (h : Host) :
  fst (run_async requests None h) = Returned (replies requests h).
Proof.
  revert h; induction requests as [|r rest IH]; intros h; simpl.
  - reflexivity.
  - specialize (IH (snd (handle r h))).
    destruct (handle r h) as [answer h1]; simpl in *.
    destruct (run_async rest None h1) as [[a|f] h2]; simpl in IH;
      [|discriminate].
    injection IH as ->. reflexivity.
Qed.

Lemma replies_length (requests : list request) (h : Host) :
  List.length (replies requests h) = List.length requests.
Proof.
  revert h; induction requests as [|r rest IH]; intros h; simpl;
    [reflexivity | now rewrite IH].
Qed.

End RunFacts.

(** X18.  A run of [main] that starts without pool, with the server in
    reach and answering the version probe, and that ends by returning:
    exactly one pool is created, with sizes 2 and 10; it serves all the
    requests and is closed at the end; and the run gives, for each
    request in order, the answer of its handler on the state that
    [init_db] and the earlier requests left. *)
Theorem main_uses_one_pool (requests : list ServerV2Tools.request)
    (h : Host.Host) (version : list Driver.PgRecord) :
  Driver._db_pool (Host.world h) = None ->
  Driver.reachable (Host.world h) = true ->
  Driver.backend (Host.world h) (Driver.mk_stmt "SELECT version();" [])
  = Eff.Ok version ->
  let p := Driver.mk_pool (List.length (Driver.created (Host.world h))) 2 10 in
  let h1 := snd (Host.of_world (ServerV2.init_db 2 10) h) in
  let h' := snd (ServerV2Tools.main requests None h) in
  Driver.created (Host.world h') = (Driver.created (Host.world h) ++ [p])%list
  /\ Driver.closed (Host.world h') = (Driver.closed (Host.world h) ++ [p])%list
  /\ Driver._db_pool (Host.world h') = None
  /\ Driver._db_pool (Host.world h1) = Some p
  /\ fst (ServerV2Tools.main requests None h)
     = Host.Returned (ServerV2Tools.replies requests h1)
  /\ List.length (ServerV2Tools.replies requests h1) = List.length requests.
Proof.
  intros Hp Hr Hb p h1 h'. subst h' h1.
  assert (Hinit : exists w1,
             Host.of_world (ServerV2.init_db 2 10) h
             = (Host.Returned p,
                Host.mk_host w1 (Host.writable h) (Host.written h))
             /\ Driver._db_pool w1 = Some p
             /\ Driver.created w1 = (Driver.created (Host.world h) ++ [p])%list
             /\ Driver.closed w1 = Driver.closed (Host.world h)).
  { unfold Host.of_world.
    rewrite (PoolLife.init_db_none _ _ _ Hp), Hr; cbv zeta; rewrite Hb.
    eexists; split; [reflexivity|]. repeat split. }
  destruct Hinit as (w1 & Hinit & Hw1).
  unfold ServerV2Tools.main, Host.hbind. rewrite Hinit.
  set (h1 := Host.mk_host w1 (Host.writable h) (Host.written h)).
  cbn [snd].
  pose proof (PoolLife.keeps_run_async
                (fun w => Driver._db_pool w = Some p
                          /\ Driver.created w = (Driver.created (Host.world h) ++ [p])%list
                          /\ Driver.closed w = Driver.closed (Host.world h))) as Hk.
  specialize (Hk ltac:(intros lo hi w0 (H1 & H2 & H3);
                       rewrite (init_db_initialised _ _ _ _ H1); auto)
                 ltac:(intros s w0 H; exact H)
                 requests None h1 Hw1).
  pose proof (RunFacts.run_async_replies requests h1) as Ha.
  destruct (ServerV2Tools.run_async requests None h1) as [r h2].
  simpl in Ha, Hk; subst r. destruct Hk as (H1 & H2 & H3).
  unfold Host.of_world, ServerV2.close_db. rewrite H1.
  unfold Eff.bind, Driver.pool_close, Driver.set_db_pool; simpl.
  rewrite H2, H3. repeat split; [apply Hw1 | apply RunFacts.replies_length].
Qed.

Lemma main_uses_one_pool_witness :
  fst (ServerV2Tools.main
         [ ServerV2Tools.ExecuteQuery "DROP TABLE users";
           ServerV2Tools.TableStats "users";
           ServerV2Tools.TableSchema "users" ]
         None (Host.mk_host Sample.fresh (fun _ => true) []))
  = Host.Returned
      [ Host.Returned ServerV2.unsafe_envelope;
        Host.Failed (Host.Exception (Eff.AttributeError "quote_ident"));
        Host.Returned
          (PyVal.PDict
             [ ("table_name", PyVal.PStr "users");
               ("columns",
                PyVal.PList
                  [ PyVal.PDict [ ("name", PyVal.PStr "id");
                                  ("type", PyVal.PStr "integer");
                                  ("nullable", PyVal.PBool false) ];
                    PyVal.PDict [ ("name", PyVal.PStr "name");
                                  ("type", PyVal.PStr "text");
                                  ("nullable", PyVal.PBool true) ] ]) ]) ]
  /\ Driver.closed
       (Host.world
          (snd (ServerV2Tools.main
                  [ ServerV2Tools.ExecuteQuery "DROP TABLE users";
                    ServerV2Tools.TableStats "users";
                    ServerV2Tools.TableSchema "users" ]
                  None (Host.mk_host Sample.fresh (fun _ => true) []))))
     = [Driver.mk_pool 0 2 10].
Proof.
  destruct (main_uses_one_pool
              [ ServerV2Tools.ExecuteQuery "DROP TABLE users";
                ServerV2Tools.TableStats "users";
                ServerV2Tools.TableSchema "users" ]
              (Host.mk_host Sample.fresh (fun _ => true) [])
              [[("version", PyVal.PStr "PostgreSQL")]]
              eq_refl eq_refl eq_refl) as (_ & Hclosed & _ & _ & Hrun & _).
  split; [exact Hrun | exact Hclosed].
Defined.

(** ** ISO strings *)

Module IsoFacts.
Import PyVal.

Lemma app_inv_len (a a' b b' : string) :
  String.length a = String.length a' -> a ++ b = a' ++ b' -> a = a' /\ b = b'.
Proof.
  revert a'; induction a as [|c a IH]; intros [|c' a'] Hl H;
    try discriminate; simpl in *.
  - auto.
  - injection H as -> H. injection Hl as Hl.
    destruct (IH _ Hl H) as [-> ->]; auto.
Qed.

Lemma tail_eq (c : ascii) (x y : string) : String c x = String c y -> x = y.
Proof. intros H; now injection H. Qed.

Lemma length_app_s (a b : string) :
  String.length (a ++ b) = (String.length a + String.length b)%nat.
Proof. induction a as [|c a IH]; simpl; [reflexivity | now rewrite IH]. Qed.

Lemma zpad_length (w : nat) (n : N) : String.length (zpad w n) = w.
Proof.
  revert n; induction w as [|w IH]; intros n; simpl; [reflexivity|].
  rewrite length_app_s, IH; simpl; lia.
Qed.

Lemma digit_inj (n m : N) : digit n = digit m -> (n mod 10 = m mod 10)%N.
Proof.
  unfold digit; intros H.
  assert (Hn : (n mod 10 < 10)%N) by (apply N.mod_lt; discriminate).
  assert (Hm : (m mod 10 < 10)%N) by (apply N.mod_lt; discriminate).
  apply (f_equal N_of_ascii) in H.
  rewrite !N_ascii_embedding in H by lia. lia.
Qed.

Lemma zpad_inj (w : nat) (n m : N) :
  (n < 10 ^ N.of_nat w)%N -> (m < 10 ^ N.of_nat w)%N ->
  zpad w n = zpad w m -> n = m.
Proof.
  revert n m; induction w as [|w IH]; intros n m Hn Hm H.
  - simpl in Hn, Hm; lia.
  - rewrite Nat2N.inj_succ, N.pow_succ_r' in Hn, Hm. simpl in H.
    apply app_inv_len in H as [H1 H2]; [|now rewrite !zpad_length].
    injection H2 as H2. apply digit_inj in H2.
    assert (Hq : (n / 10 = m / 10)%N).
    { apply IH; [| |exact H1];
        apply N.Div0.div_lt_upper_bound; lia. }
    rewrite (N.div_mod n 10), (N.div_mod m 10) by discriminate. lia.
Qed.

(** One field of fixed width, and what follows it. *)
Lemma field_inv (w : nat) (n m : N) (x y : string) :
  (n < 10 ^ N.of_nat w)%N -> (m < 10 ^ N.of_nat w)%N ->
  zpad w n ++ x = zpad w m ++ y -> n = m /\ x = y.
Proof.
  intros Hn Hm H.
  apply app_inv_len in H as [H1 H2]; [|now rewrite !zpad_length].
  split; [now apply (zpad_inj w) | exact H2].
Qed.

Lemma format_offset_head (off : option Z) :
  format_offset off = EmptyString
  \/ exists r, format_offset off = String "+"%char r
               \/ format_offset off = String "-"%char r.
Proof.
  destruct off as [o|]; [right | now left]. unfold format_offset.
  destruct (o <? 0)%Z; eexists; [right | left]; reflexivity.
Qed.

Lemma offset_parts (a : N) :
  (a = 3600 * (a / 3600) + 60 * ((a mod 3600) / 60) + a mod 60)%N.
Proof.
  assert (H1 := N.div_mod a 3600). assert (H2 := N.div_mod (a mod 3600) 60).
  assert (H3 : ((a mod 3600) mod 60 = a mod 60)%N).
  { replace 3600%N with (60 * 60)%N by reflexivity.
    rewrite N.Div0.mod_mul_r.
    rewrite N.mul_comm, N.Div0.mod_add. now rewrite N.Div0.mod_mod. }
  lia.
Qed.

Lemma format_offset_inj (o1 o2 : option Z) :
  match o1 with Some o => (-86400 < o < 86400)%Z | None => True end ->
  match o2 with Some o => (-86400 < o < 86400)%Z | None => True end ->
  format_offset o1 = format_offset o2 -> o1 = o2.
Proof.
  destruct o1 as [a|], o2 as [b|]; unfold format_offset; intros Ha Hb H;
    try reflexivity;
    try (destruct (_ <? 0)%Z; discriminate).
  assert (Hs : (a <? 0)%Z = (b <? 0)%Z).
  { destruct (a <? 0)%Z, (b <? 0)%Z; try reflexivity; discriminate. }
  assert (H' : zpad 2 (Z.to_N (Z.abs a) / 3600) ++ ":" ++
               zpad 2 (Z.to_N (Z.abs a) mod 3600 / 60) ++
               (if (Z.to_N (Z.abs a) mod 60 =? 0)%N then EmptyString
                else ":" ++ zpad 2 (Z.to_N (Z.abs a) mod 60))
               = zpad 2 (Z.to_N (Z.abs b) / 3600) ++ ":" ++
                 zpad 2 (Z.to_N (Z.abs b) mod 3600 / 60) ++
                 (if (Z.to_N (Z.abs b) mod 60 =? 0)%N then EmptyString
                  else ":" ++ zpad 2 (Z.to_N (Z.abs b) mod 60))).
  { rewrite Hs in H.
    destruct (b <? 0)%Z; cbn [append] in H; apply tail_eq in H; exact H. }
  clear H. set (x := Z.to_N (Z.abs a)) in *. set (y := Z.to_N (Z.abs b)) in *.
  assert (Hx : (x < 86400)%N) by (subst x; lia).
  assert (Hy : (y < 86400)%N) by (subst y; lia).
  assert (B1 : forall z, (z < 86400 -> z / 3600 < 10 ^ N.of_nat 2)%N).
  { intros z Hz. apply N.Div0.div_lt_upper_bound. simpl; lia. }
  assert (B2 : forall z, (z mod 3600 / 60 < 10 ^ N.of_nat 2)%N).
  { intros z. apply N.Div0.div_lt_upper_bound.
    pose proof (N.mod_lt z 3600); simpl; lia. }
  assert (B3 : forall z, (z mod 60 < 10 ^ N.of_nat 2)%N).
  { intros z. pose proof (N.mod_lt z 60); simpl; lia. }
  apply field_inv in H' as [Hh H']; auto.
  cbn [append] in H'. apply tail_eq in H'.
  apply field_inv in H' as [Hm H']; auto.
  assert (Hsec : (x mod 60 = y mod 60)%N).
  { destruct (N.eqb_spec (x mod 60) 0), (N.eqb_spec (y mod 60) 0);
      try congruence; cbn [append] in H'; try discriminate.
    apply tail_eq in H'.
    rewrite <- (PyStrFacts.app_empty_r (zpad 2 (x mod 60))) in H'.
    rewrite <- (PyStrFacts.app_empty_r (zpad 2 (y mod 60))) in H'.
    now apply field_inv in H' as [H' _]. }
  assert (Hxy : x = y).
  { rewrite (offset_parts x), (offset_parts y). congruence. }
  f_equal.
  subst x y. destruct (Z.ltb_spec a 0), (Z.ltb_spec b 0); try discriminate; lia.
Qed.

End IsoFacts.

(** X19.  Two datetimes within the ranges of [datetime] that have the
    same ISO string are the same: the string a datetime column is
    turned into loses nothing of the value, offset included. *)
Theorem isoformat_injective (d1 d2 : PyVal.datetime) :
  Calendar.in_range d1 = true ->
  Calendar.in_range d2 = true ->
  PyVal.isoformat d1 = PyVal.isoformat d2 ->
  d1 = d2.
Proof.
  destruct d1 as [y1 mo1 dd1 h1 mi1 s1 us1 o1].
  destruct d2 as [y2 mo2 dd2 h2 mi2 s2 us2 o2].
  unfold Calendar.in_range, PyVal.isoformat;
    cbn [PyVal.year PyVal.month PyVal.day PyVal.hour PyVal.minute
         PyVal.second PyVal.microsecond PyVal.utcoffset].
  intros R1 R2 H.
  repeat match goal with
         | R : _ && _ = true |- _ => apply andb_true_iff in R as [? ?]
         end.
  repeat match goal with
         | R : (_ <=? _)%N = true |- _ => apply N.leb_le in R
         | R : (_ <? _)%N = true |- _ => apply N.ltb_lt in R
         end.
  apply IsoFacts.field_inv in H as [-> H]; [|simpl; lia..].
  cbn [append] in H; apply IsoFacts.tail_eq in H.
  apply IsoFacts.field_inv in H as [-> H]; [|simpl; lia..].
  cbn [append] in H; apply IsoFacts.tail_eq in H.
  apply IsoFacts.field_inv in H as [-> H]; [|simpl; lia..].
  cbn [append] in H; apply IsoFacts.tail_eq in H.
  apply IsoFacts.field_inv in H as [-> H]; [|simpl; lia..].
  cbn [append] in H; apply IsoFacts.tail_eq in H.
  apply IsoFacts.field_inv in H as [-> H]; [|simpl; lia..].
  cbn [append] in H; apply IsoFacts.tail_eq in H.
  apply IsoFacts.field_inv in H as [-> H]; [|simpl; lia..].
  assert (Ho : forall o, match o with
                         | Some z => ((-86400 <? z) && (z <? 86400))%Z
                         | None => true
                         end = true ->
                         match o with
                         | Some z => (-86400 < z < 86400)%Z
                         | None => True
                         end).
  { intros [z|] Hz; [|exact I].
    apply andb_true_iff in Hz as [Ha Hb]. apply Z.ltb_lt in Ha, Hb. lia. }
  assert (Hus : us1 = us2 /\ PyVal.format_offset o1 = PyVal.format_offset o2).
  { destruct (N.eqb_spec us1 0) as [E1|E1], (N.eqb_spec us2 0) as [E2|E2];
      cbn [append] in H.
    - split; [congruence | exact H].
    - exfalso. destruct (IsoFacts.format_offset_head o1) as [E | (r & [E|E])];
        rewrite E in H; discriminate.
    - exfalso. destruct (IsoFacts.format_offset_head o2) as [E | (r & [E|E])];
        rewrite E in H; discriminate.
    - apply IsoFacts.tail_eq in H.
      apply IsoFacts.field_inv in H as [-> H]; [auto | simpl; lia..]. }
  destruct Hus as [-> Hoff].
  apply IsoFacts.format_offset_inj in Hoff; [now subst | now apply Ho..].
Qed.

Lemma isoformat_injective_witness :
  PyVal.mk_datetime 2024 1 5 9 3 7 0 (Some 0%Z)
  = PyVal.mk_datetime 2024 1 5 9 3 7 0 (Some 0%Z).
Proof.
  apply isoformat_injective; reflexivity.
Defined.
